(** * get_available_data.py: buoy swell events matched against Sentinel products

    A shallow embedding of [src/get_available_data.py] and the properties its
    specification states about it.

    Modelling conventions.
    - Timestamps (the DatetimeIndex of a buoypy frame) are whole seconds in [Z];
      [abs(a - b).total_seconds() >= window*3600] is then a comparison in [Z].
    - Measurements and coordinates are Python floats.  Only comparisons and a
      multiplication by [-1.0] are applied to them, so a float is modelled by
      the rational it denotes, or [NaN] (buoypy reads the marker MM as NaN).
    - A Python exception is a value of [exn]; code that may raise returns a
      [result].  Code that also prints, or asks the catalog to download, runs
      in the monad [M], which threads the list of effects performed so far.
    - The services the script calls (the HTTP fetch, buoypy, the sentinelsat
      client) are the variables of Section [World]. *)

From Stdlib Require Import Ascii String.
From Stdlib Require Import List Sorted ZArith QArith Bool Lia.
Import ListNotations.

Local Open Scope Z_scope.

(* ================================================================== *)
(** ** Python values and exceptions *)

Inductive exn : Type :=
| IndexError
| KeyError
| TypeError
| ValueError.

Inductive result (A : Type) : Type :=
| Ok (a : A)
| Raise (e : exn).

Arguments Ok {A} a.
Arguments Raise {A} e.

Definition rbind {A B : Type} (r : result A) (k : A -> result B) : result B :=
  match r with
  | Ok a => k a
  | Raise e => Raise e
  end.

Declare Scope result_scope.
Delimit Scope result_scope with result.
Notation "x <- c ;; k" := (rbind c (fun x => k))
  (at level 61, c at next level, right associativity) : result_scope.

(** A Python float: the rational it denotes, or NaN. *)
Inductive pyfloat : Type :=
| Fin (q : Q)
| NaN.

(** [x >= y], [x <= y], [x != y] on floats; every ordered comparison with NaN
    is false and NaN differs from everything. *)
Definition fge (x y : pyfloat) : bool :=
  match x, y with
  | Fin a, Fin b => Qle_bool b a
  | _, _ => false
  end.

Definition fle (x y : pyfloat) : bool :=
  match x, y with
  | Fin a, Fin b => Qle_bool a b
  | _, _ => false
  end.

Definition fne (x y : pyfloat) : bool :=
  match x, y with
  | Fin a, Fin b => negb (Qeq_bool a b)
  | _, _ => true
  end.

(** [x < y] as a proposition, for stating hypotheses. *)
Definition flt (x y : pyfloat) : Prop :=
  match x, y with
  | Fin a, Fin b => (a < b)%Q
  | _, _ => False
  end.

(** The marker NDBC writes where there is no measurement. *)
Definition sentinel : pyfloat := Fin (99 # 1).

(** [l[i]] for [i >= 0], and [l[-1]]. *)
Definition getitem {A : Type} (l : list A) (i : nat) : result A :=
  match nth_error l i with
  | Some a => Ok a
  | None => Raise IndexError
  end.

Definition getitem_last {A : Type} (l : list A) : result A :=
  match rev l with
  | a :: _ => Ok a
  | [] => Raise IndexError
  end.

(** [for i in range(n): st = body i st], stopping at the first exception. *)
Fixpoint for_each {S : Type} (body : nat -> S -> result S) (idx : list nat) (st : S)
  : result S :=
  match idx with
  | [] => Ok st
  | i :: idx' =>
      match body i st with
      | Ok st' => for_each body idx' st'
      | Raise e => Raise e
      end
  end.

Definition for_range {S : Type} (n : nat) (body : nat -> S -> result S) (st : S)
  : result S :=
  for_each body (seq 0 n) st.

(* ================================================================== *)
(** ** The measurement frames *)

(** A row of [bp.realtime(location).spec()]: the index and the two columns
    the script reads. *)
Record rt_row : Type := mk_rt_row {
  rt_time : Z;
  SwH : pyfloat;
  WWH : pyfloat
}.

(** A row of [bp.historic_data(location, year).get_stand_meteo()]. *)
Record h_row : Type := mk_h_row {
  h_time : Z;
  WVHT : pyfloat
}.

(** [frame[col][i]]: the frames are indexed by time, so an integer subscript
    is a position. *)
Definition at_pos {R A : Type} (col : R -> A) (frame : list R) (i : nat) : result A :=
  getitem (map col frame) i.

(** [spec = spec[spec.SwH != 99.00]] and [data = data[data.WVHT != 99.00]]. *)
Definition drop_missing_spec (spec : list rt_row) : list rt_row :=
  filter (fun r => fne (SwH r) sentinel) spec.

Definition drop_missing_data (data : list h_row) : list h_row :=
  filter (fun r => fne (WVHT r) sentinel) data.

(* ================================================================== *)
(** ** The windowing scan *)

(** The three lists both loops maintain. *)
Record scan_state : Type := mk_scan {
  swell_event : list Z;
  first_date : list Z;
  last_date : list Z
}.

Definition scan_init : scan_state := mk_scan [] [] [].

Section Scan.
Local Open Scope result_scope.

(** Body of the loop of [realtime] (lines 78-87). *)
Definition realtime_scan_body (spec : list rt_row) (swell_height wind_wave_height : pyfloat)
    (window : Z) (i : nat) (st : scan_state) : result scan_state :=
  swh <- at_pos SwH spec i ;;
  cond <- (if fge swh swell_height
           then (wwh <- at_pos WWH spec i ;; Ok (fle wwh wind_wave_height))
           else Ok false) ;;
  if cond : bool then
    t <- at_pos rt_time spec i ;;
    let swell_event := swell_event st ++ [t] in
    a <- getitem swell_event 0 ;;
    b <- getitem_last swell_event ;;
    if window * 3600 <=? Z.abs (a - b) then
      b' <- getitem_last swell_event ;;
      a' <- getitem swell_event 0 ;;
      Ok (mk_scan [] (first_date st ++ [b']) (last_date st ++ [a']))
    else
      Ok (mk_scan swell_event (first_date st) (last_date st))
  else
    Ok (mk_scan [] (first_date st) (last_date st)).

Definition realtime_scan (spec : list rt_row) (swell_height wind_wave_height : pyfloat)
    (window : Z) : result scan_state :=
  for_range (length spec)
    (realtime_scan_body spec swell_height wind_wave_height window) scan_init.

(** Body of the loop of [historic] (lines 171-180). *)
Definition historic_scan_body (data : list h_row) (wave_height : pyfloat)
    (window : Z) (i : nat) (st : scan_state) : result scan_state :=
  wvht <- at_pos WVHT data i ;;
  if fge wvht wave_height then
    t <- at_pos h_time data i ;;
    let swell_event := swell_event st ++ [t] in
    a <- getitem swell_event 0 ;;
    b <- getitem_last swell_event ;;
    if window * 3600 <=? Z.abs (a - b) then
      a' <- getitem swell_event 0 ;;
      b' <- getitem_last swell_event ;;
      Ok (mk_scan [] (first_date st ++ [a']) (last_date st ++ [b']))
    else
      Ok (mk_scan swell_event (first_date st) (last_date st))
  else
    Ok (mk_scan [] (first_date st) (last_date st)).

Definition historic_scan (data : list h_row) (wave_height : pyfloat)
    (window : Z) : result scan_state :=
  for_range (length data) (historic_scan_body data wave_height window) scan_init.

End Scan.

(** The predicates the two loops test, as functions of a row. *)
Definition rt_holds (swell_height wind_wave_height : pyfloat) (r : rt_row) : bool :=
  fge (SwH r) swell_height && fle (WWH r) wind_wave_height.

Definition h_holds (wave_height : pyfloat) (r : h_row) : bool :=
  fge (WVHT r) wave_height.

(** The scans behind the sentinel filter, as [realtime] and [historic] run them. *)
Definition realtime_windows (raw : list rt_row) (swell_height wind_wave_height : pyfloat)
    (window : Z) : result scan_state :=
  realtime_scan (drop_missing_spec raw) swell_height wind_wave_height window.

Definition historic_windows (raw : list h_row) (wave_height : pyfloat) (window : Z)
  : result scan_state :=
  historic_scan (drop_missing_data raw) wave_height window.

(* ================================================================== *)
(** ** The scan in the specification's words

    Section 4.2 of the specification: an accumulator of timestamps, a sample
    that satisfies the predicate is appended, one that does not empties the
    accumulator; after an append the elapsed time between the first and the
    last element is compared with the minimum window, and when it is reached
    an event (first, last) is emitted and the accumulator emptied. *)

Record spec_state : Type := mk_spec {
  accumulator : list Z;
  events : list (Z * Z)
}.

Definition spec_init : spec_state := mk_spec [] [].

Definition elapsed (first last : Z) : Z := Z.abs (last - first).

Definition spec_step (window : Z) (st : spec_state) (sample : Z * bool) : spec_state :=
  let (t, holds) := sample in
  if holds then
    match accumulator st ++ [t] with
    | [] => mk_spec [] (events st)
    | first :: rest =>
        let last := List.last rest first in
        if window * 3600 <=? elapsed first last
        then mk_spec [] (events st ++ [(first, last)])
        else mk_spec (first :: rest) (events st)
    end
  else mk_spec [] (events st).

Definition spec_scan (window : Z) (samples : list (Z * bool)) : spec_state :=
  fold_left (spec_step window) samples spec_init.

(** The samples of the two frames: timestamp and whether the predicate holds. *)
Definition rt_samples (swell_height wind_wave_height : pyfloat) (spec : list rt_row)
  : list (Z * bool) :=
  map (fun r => (rt_time r, rt_holds swell_height wind_wave_height r)) spec.

Definition h_samples (wave_height : pyfloat) (data : list h_row) : list (Z * bool) :=
  map (fun r => (h_time r, h_holds wave_height r)) data.

(* ================================================================== *)
(** ** Strings: slices, split, and the regular expression of the resolver *)

Module Str.

(** [s[start:-stop]] for literal [start], [stop] (Python clamps both ends). *)
Definition slice (start stop : nat) (s : string) : string :=
  substring start (String.length s - stop - start) s.

(** [s.split(sep)] for a one-character separator: never the empty list. *)
Fixpoint split (sep : ascii) (s : string) : list string :=
  match s with
  | EmptyString => [EmptyString]
  | String c s' =>
      if Ascii.eqb c sep then EmptyString :: split sep s'
      else match split sep s' with
           | w :: ws => String c w :: ws
           | [] => [String c EmptyString]
           end
  end.

Fixpoint join (sep : string) (l : list string) : string :=
  match l with
  | [] => EmptyString
  | [x] => x
  | x :: rest => (x ++ sep ++ join sep rest)%string
  end.

Definition is_digit (c : ascii) : bool :=
  let n := nat_of_ascii c in (48 <=? n)%nat && (n <=? 57)%nat.

Definition lower (c : ascii) : ascii :=
  let n := nat_of_ascii c in
  if (65 <=? n)%nat && (n <=? 90)%nat then ascii_of_nat (n + 32) else c.

Fixpoint all_digits (s : string) : bool :=
  match s with
  | EmptyString => true
  | String c s' => is_digit c && all_digits s'
  end.

(** The number a string of decimal digits denotes, most significant first. *)
Fixpoint digits_value (acc : Z) (s : string) : Z :=
  match s with
  | EmptyString => acc
  | String c s' => digits_value (10 * acc + Z.of_nat (nat_of_ascii c - 48)) s'
  end.

End Str.

Module Regex.

(** The fragment of [re] the resolver's pattern is written in: a sequence of
    atoms, each taken once or under a greedy [+], each inside one capture
    group or none. *)
Inductive atom : Type :=
| Digit                       (* \d *)
| Lit (c : ascii)             (* a literal character *)
| Class (cs : list ascii).    (* [...] *)

Inductive item : Type :=
| One (a : atom)
| Plus (a : atom).

(** [ignorecase] is the flag re.IGNORECASE. *)
Definition atom_matches (ignorecase : bool) (a : atom) (c : ascii) : bool :=
  let same x y :=
    if ignorecase then Ascii.eqb (Str.lower x) (Str.lower y) else Ascii.eqb x y in
  match a with
  | Digit => Str.is_digit c
  | Lit x => same x c
  | Class cs => existsb (fun x => same x c) cs
  end.

(** Match the items at the start of [s], backtracking: a [+] first tries to
    take one more character and gives it back when the rest then fails.  The
    result is the text each item consumed. *)
Fixpoint match_here (ignorecase : bool) (items : list item) (s : string)
  {struct items} : option (list string) :=
  match items with
  | [] => Some []
  | One a :: rest =>
      match s with
      | String c s' =>
          if atom_matches ignorecase a c
          then option_map (cons (String c EmptyString)) (match_here ignorecase rest s')
          else None
      | EmptyString => None
      end
  | Plus a :: rest =>
      (fix plus (s : string) : option (list string) :=
         match s with
         | String c s' =>
             if atom_matches ignorecase a c then
               match plus s' with
               | Some (more :: others) => Some (String c more :: others)
               | _ => option_map (cons (String c EmptyString))
                        (match_here ignorecase rest s')
               end
             else None
         | EmptyString => None
         end) s
  end.

(** [re.search]: the match at the leftmost position that has one. *)
Fixpoint search (ignorecase : bool) (items : list item) (s : string)
  : option (list string) :=
  match match_here ignorecase items s with
  | Some m => Some m
  | None =>
      match s with
      | String _ s' => search ignorecase items s'
      | EmptyString => None
      end
  end.

(** [m.group(k)] when group [k] spans the items [from .. from+len-1]. *)
Definition group (m : list string) (from len : nat) : string :=
  Str.join EmptyString (firstn len (skipn from m)).

End Regex.

(** [(\d+\.\d+) ([N|S]) (\d+\.\d+) ([W|E])]; inside brackets the bar is an
    ordinary character. *)
Definition regex_pattern : list Regex.item :=
  let decimal := [Regex.Plus Regex.Digit; Regex.One (Regex.Lit "."); Regex.Plus Regex.Digit] in
  let space := [Regex.One (Regex.Lit " ")] in
  (decimal ++ space ++ [Regex.One (Regex.Class ["N"; "|"; "S"])] ++ space ++
   decimal ++ space ++ [Regex.One (Regex.Class ["W"; "|"; "E"])])%char%list.

(** [float(s)] on the only strings the resolver passes to it, digits with one
    point between them; anything else is a ValueError here. *)
Definition py_float (s : string) : result Q :=
  match Str.split "." s with
  | [ip; fp] =>
      if negb (String.eqb ip "") && negb (String.eqb fp "")
         && Str.all_digits ip && Str.all_digits fp
      then Ok (Str.digits_value 0 (ip ++ fp)
               # Pos.pow 10 (Pos.of_nat (String.length fp)))
      else Raise ValueError
  | _ => Raise ValueError
  end.

(* ================================================================== *)
(** ** Effects: what the script prints and asks the catalog to download *)

(** A product of the catalog; the script reads only its title. *)
Record product : Type := mk_product { title : string }.

(** What [api.query] returns: an OrderedDict from product id to product. *)
Definition products : Type := list (string * product).

(** A Python object that reaches [+] or [print]. *)
Inductive pyobj : Type :=
| PStr (s : string)
| PInt (z : Z).

(** [a + b]: strings concatenate, integers add, a string and an integer do
    neither. *)
Definition py_add (a b : pyobj) : result pyobj :=
  match a, b with
  | PStr x, PStr y => Ok (PStr (x ++ y))
  | PInt x, PInt y => Ok (PInt (x + y))
  | _, _ => Raise TypeError
  end.

(** The lines the script prints, by the format string that produces them. *)
Inductive msg : Type :=
| Text (o : pyobj)
| BuoyStation (location : Z)
| SwellEventNumber (i : nat)
| StartEnd (first last : Z)
| NoAvailableProduct (platformname producttype : string)
| AvailableProduct (platformname producttype : string)
| AvailableProductFor (i : nat)
| ProductTitle (t : string)
| StationSummary (location : Z) (n : nat) (window : Z).

Inductive effect : Type :=
| Print (m : msg)
| DownloadAll (ps : products).

(** A computation that may raise and that extends the trace of effects. *)
Definition M (A : Type) : Type := list effect -> result A * list effect.

Definition mret {A : Type} (a : A) : M A := fun tr => (Ok a, tr).

Definition mbind {A B : Type} (c : M A) (k : A -> M B) : M B :=
  fun tr =>
    match c tr with
    | (Ok a, tr') => k a tr'
    | (Raise e, tr') => (Raise e, tr')
    end.

Definition lift {A : Type} (r : result A) : M A := fun tr => (r, tr).

Definition perform (e : effect) : M unit := fun tr => (Ok tt, tr ++ [e]).

Definition print (m : msg) : M unit := perform (Print m).

Declare Scope M_scope.
Delimit Scope M_scope with M.
Notation "x <- c ;; k" := (mbind c (fun x => k))
  (at level 61, c at next level, right associativity) : M_scope.
Notation "c ;; k" := (mbind c (fun _ => k))
  (at level 61, right associativity) : M_scope.

Fixpoint for_each_M {S : Type} (body : nat -> S -> M S) (idx : list nat) (st : S) : M S :=
  match idx with
  | [] => mret st
  | i :: idx' => mbind (body i st) (for_each_M body idx')
  end.

Definition for_range_M {S : Type} (n : nat) (body : nat -> S -> M S) (st : S) : M S :=
  for_each_M body (seq 0 n) st.

(** The value and the trace of a computation run from the empty trace. *)
Definition value_of {A : Type} (c : M A) : result A := fst (c []).
Definition trace_of {A : Type} (c : M A) : list effect := snd (c []).

(** [list_of_realtime_buoys_NOAA]. *)
Definition list_of_realtime_buoys_NOAA : list Z :=
  [41001; 41002; 41004; 41008; 41009; 41010; 41013; 41040; 41043; 41044; 41046;
   41047; 41048; 41049; 42002; 42012; 42019; 42020; 42036; 42039; 42040; 42055;
   42056; 42059; 42060; 44005; 44007; 44008; 44009; 44011; 44013; 44014; 44017;
   44020; 44025; 44027; 44065; 44066; 46002; 46005; 46006; 46011; 46012; 46014;
   46015; 46022; 46025; 46026; 46027; 46028; 46029; 46035; 46041; 46042; 46047;
   46050; 46054; 46059; 46061; 46069; 46070; 46072; 46073; 46076; 46077; 46080;
   46081; 46082; 46083; 46085; 46086; 46089; 51000; 51001; 51003; 51004; 51101].

(** What [requests.get] returns, as far as the resolver reads it. *)
Record response : Type := mk_response {
  status_code : Z;
  text : string
}.

(** A footprint: the ring of the polygon built around the buoy, as (x, y). *)
Definition footprint : Type := list (Q * Q).

(** [geojson.Polygon([[(lon,lat+dx),(lon+dx,lat),(lon,lat-dx),(lon-dx,lat),
    (lon,lat+dx)]])] with [dx = 0.001]; adding to None is a TypeError. *)
Definition make_polygon (lat lon : option Q) : result footprint :=
  match lat, lon with
  | Some lat, Some lon =>
      let dx := (1 # 1000)%Q in
      Ok [(lon, lat + dx); (lon + dx, lat); (lon, lat - dx); (lon - dx, lat);
          (lon, lat + dx)]%Q
  | _, _ => Raise TypeError
  end.

(** [str(products.keys())] of an OrderedDict whose keys are plain strings
    (product ids: no quote, backslash or control character, so [repr] only
    puts the key between single quotes). *)
Definition str_keys (ps : products) : string :=
  ("odict_keys([" ++ Str.join ", " (map (fun kv => "'" ++ fst kv ++ "'") ps) ++ "])")%string.

(** [products[key]]. *)
Fixpoint lookup (ps : products) (key : string) : result product :=
  match ps with
  | [] => Raise KeyError
  | (k, p) :: ps' => if String.eqb k key then Ok p else lookup ps' key
  end.

(** [l[i] = v]. *)
Fixpoint setitem {A : Type} (l : list A) (i : nat) (v : A) : result (list A) :=
  match l, i with
  | [], _ => Raise IndexError
  | _ :: l', O => Ok (v :: l')
  | x :: l', S i' =>
      match setitem l' i' v with
      | Ok r => Ok (x :: r)
      | Raise e => Raise e
      end
  end.

(** Lines 104-113 and 198-207: the keys of [products], recovered from their
    printed form.  The loop rebinds [i], the variable of the enclosing loop,
    which is returned with the keys. *)
Definition product_keys_of (ps : products) (i : nat) : result (list string * nat) :=
  let cleaning_data := str_keys ps in
  let cleaning_data := Str.slice 12 2 cleaning_data in
  let cleaning_data := Str.split "," cleaning_data in
  for_range (List.length cleaning_data)
    (fun i st =>
       let cleaning_data := fst st in
       rbind (getitem cleaning_data i) (fun x =>
       rbind (setitem cleaning_data i
                (if (i =? 0)%nat then Str.slice 1 1 x else Str.slice 2 1 x))
         (fun cleaning_data => Ok (cleaning_data, i))))
    (cleaning_data, i).

(* ================================================================== *)
(** ** The script's functions *)

Section World.
Local Open Scope M_scope.

(** [requests.get] on the status page of a station. *)
Variable requests_get : Z -> response.
(** [bp.realtime(location).spec()]. *)
Variable bp_realtime_spec : Z -> list rt_row.
(** [bp.historic_data(location, year).get_stand_meteo()]. *)
Variable bp_stand_meteo : Z -> Z -> list h_row.
(** [SentinelAPI(username, password, url).query(footprint, date=(a, b),
    platformname, polarisationmode, producttype, sensoroperationalmode)]. *)
Variable api_query :
  string * string -> footprint -> Z * Z -> string -> string -> string -> string -> products.

(** Lines 217-249. *)
Definition get_lat_lon_from_ndbcnoaa (index : Z) : M (option Q * option Q) :=
  let response := requests_get index in
  if status_code response =? 200 then
    let html := text response in
    match Regex.search true regex_pattern html with
    | Some search =>
        lat <- lift (py_float (Regex.group search 0 3)) ;;
        let lat_direction := Regex.group search 4 1 in
        lon <- lift (py_float (Regex.group search 6 3)) ;;
        let lon_direction := Regex.group search 10 1 in
        let lat := if String.eqb lat_direction "S" then (lat * (-1 # 1))%Q else lat in
        let lon := if String.eqb lon_direction "W" then (lon * (-1 # 1))%Q else lon in
        mret (Some lat, Some lon)
    | None =>
        print (Text (PStr "Regex pattern not found... ")) ;;
        mret (None, None)
    end
  else
    line <- lift (py_add
                    (PStr "Something went wrong while connecting to ndbc website... ")
                    (PInt (status_code response))) ;;
    print (Text line) ;;
    mret (None, None).

(** Body of the second loop of [realtime] (lines 88-120). *)
Definition realtime_products_body (api : string * string) (footprint : footprint)
    (first_date last_date : list Z)
    (platformname polarisationmode producttype sensoroperationalmode auto_download : string)
    (i : nat) (product_list : list string) : M (list string) :=
  print (Text (PStr "---------------------------------------------")) ;;
  print (SwellEventNumber i) ;;
  a <- lift (getitem first_date i) ;;
  b <- lift (getitem last_date i) ;;
  print (StartEnd a b) ;;
  a <- lift (getitem first_date i) ;;
  b <- lift (getitem last_date i) ;;
  let products := api_query api footprint (a, b)
                    platformname polarisationmode producttype sensoroperationalmode in
  if (List.length products =? 0)%nat then
    print (NoAvailableProduct platformname producttype) ;;
    mret product_list
  else
    print (AvailableProduct platformname producttype) ;;
    ki <- lift (product_keys_of products i) ;;
    let product_keys := fst ki in
    let i := snd ki in
    product_list <-
      (if String.eqb auto_download "on" then
         perform (DownloadAll products) ;;
         mret product_list
       else
         k <- lift (getitem product_keys i) ;;
         p <- lift (lookup products k) ;;
         mret (product_list ++ [title p])) ;;
    k <- lift (getitem product_keys i) ;;
    p <- lift (lookup products k) ;;
    print (ProductTitle (title p)) ;;
    mret product_list.

(** Body of the second loop of [historic] (lines 182-212). *)
Definition historic_products_body (api : string * string) (footprint : footprint)
    (first_date last_date : list Z)
    (platformname polarisationmode producttype sensoroperationalmode auto_download : string)
    (i : nat) (product_list : list string) : M (list string) :=
  print (Text (PStr "---------------------------------------------")) ;;
  print (SwellEventNumber i) ;;
  a <- lift (getitem first_date i) ;;
  b <- lift (getitem last_date i) ;;
  print (StartEnd a b) ;;
  a <- lift (getitem first_date i) ;;
  b <- lift (getitem last_date i) ;;
  let products := api_query api footprint (a, b)
                    platformname polarisationmode producttype sensoroperationalmode in
  if (List.length products =? 0)%nat then
    print (NoAvailableProduct platformname producttype) ;;
    mret product_list
  else
    print (AvailableProductFor i) ;;
    ki <- lift (product_keys_of products i) ;;
    let product_keys := fst ki in
    let i := snd ki in
    if String.eqb auto_download "on" then
      perform (DownloadAll products) ;;
      mret product_list
    else
      k <- lift (getitem product_keys i) ;;
      p <- lift (lookup products k) ;;
      print (ProductTitle (title p)) ;;
      k <- lift (getitem product_keys i) ;;
      p <- lift (lookup products k) ;;
      mret (product_list ++ [title p]).

(** Lines 29-122. *)
Definition realtime (location : Z) (username password : string) (swell_height : pyfloat)
    (window : Z) (wind_wave_height : pyfloat)
    (platformname polarisationmode producttype sensoroperationalmode auto_download : string)
  : M (list string) :=
  latlon <- get_lat_lon_from_ndbcnoaa location ;;
  polygon <- lift (make_polygon (fst latlon) (snd latlon)) ;;
  let api := (username, password) in
  let footprint := polygon in
  let spec := drop_missing_spec (bp_realtime_spec location) in
  print (Text (PStr "------------------")) ;;
  print (BuoyStation location) ;;
  st <- lift (realtime_scan spec swell_height wind_wave_height window) ;;
  for_range_M (List.length (first_date st))
    (realtime_products_body api footprint (first_date st) (last_date st)
       platformname polarisationmode producttype sensoroperationalmode auto_download)
    [].

(** Lines 124-214. *)
Definition historic (location year : Z) (username password : string) (wave_height : pyfloat)
    (window : Z)
    (platformname polarisationmode producttype sensoroperationalmode auto_download : string)
  : M (list string) :=
  latlon <- get_lat_lon_from_ndbcnoaa location ;;
  polygon <- lift (make_polygon (fst latlon) (snd latlon)) ;;
  let api := (username, password) in
  let footprint := polygon in
  let data := drop_missing_data (bp_stand_meteo location year) in
  st <- lift (historic_scan data wave_height window) ;;
  for_range_M (List.length (first_date st))
    (historic_products_body api footprint (first_date st) (last_date st)
       platformname polarisationmode producttype sensoroperationalmode auto_download)
    [].

(** Body of the first loop of [any_realtime] (line 287), over the global list
    of stations.  The call of [realtime] passes four arguments; the others take
    the defaults of its signature. *)
Definition any_realtime_station_body (stations : list Z) (username password : string)
    (swell_height : pyfloat) (i : nat) (all_products : list (list string))
  : M (list (list string)) :=
  location <- lift (getitem stations i) ;;
  titles <- realtime location username password swell_height
              24 (Fin (99 # 1)) "Sentinel-1" "VV" "SLC" "IW" "off" ;;
  mret (all_products ++ [titles]).

(** Body of its second loop (lines 293-296), which only prints. *)
Definition any_realtime_summary_body (stations : list Z) (all_products : list (list string))
    (window : Z) (i : nat) (_ : unit) : M unit :=
  titles <- lift (getitem all_products i) ;;
  if negb (List.length titles =? 0)%nat then
    print (Text (PStr "-------------------------------------------")) ;;
    location <- lift (getitem stations i) ;;
    titles <- lift (getitem all_products i) ;;
    print (StationSummary location (List.length titles) window)
  else mret tt.

(** Lines 251-298. *)
Definition any_realtime (username password : string) (swell_height : pyfloat)
    (window : Z) (wind_wave_height : pyfloat)
    (platformname polarisationmode producttype sensoroperationalmode : string)
  : M (list (list string)) :=
  all_products <-
    for_range_M (List.length list_of_realtime_buoys_NOAA)
      (any_realtime_station_body list_of_realtime_buoys_NOAA username password swell_height)
      [] ;;
  print (Text (PStr "

")) ;;
  print (Text (PStr "-------------------------------------------")) ;;
  print (Text (PStr "Below a summary with how many products per location, given at least 1 product is available")) ;;
  for_range_M (List.length all_products)
    (any_realtime_summary_body list_of_realtime_buoys_NOAA all_products window)
    tt ;;
  mret all_products.

End World.

(* ================================================================== *)
(** ** Notions used in the statements *)

(** How each loop records the state of the specification's scan: [realtime]
    appends the accumulator's last element to [first_date] and its first to
    [last_date]; [historic] does the opposite. *)
Definition realtime_view (sp : spec_state) : scan_state :=
  mk_scan (accumulator sp) (map snd (events sp)) (map fst (events sp)).

Definition historic_view (sp : spec_state) : scan_state :=
  mk_scan (accumulator sp) (map fst (events sp)) (map snd (events sp)).

(** The events of a final state of either loop, as recorded. *)
Definition recorded (st : scan_state) : list (Z * Z) :=
  combine (first_date st) (last_date st).

Fixpoint strictly_increasing (ts : list Z) : bool :=
  match ts with
  | [] => true
  | t :: rest =>
      match rest with
      | [] => true
      | u :: _ => (t <? u) && strictly_increasing rest
      end
  end.

(** Every accumulated timestamp and every endpoint of an event is the
    timestamp of a sample of [all] that satisfies the predicate. *)
Definition drawn_from (all : list (Z * bool)) (st : spec_state) : Prop :=
  Forall (fun t => In (t, true) all) (accumulator st) /\
  Forall (fun e => In (fst e, true) all /\ In (snd e, true) all) (events st).

(** A run of timestamps, in time order, that lasts exactly the window. *)
Definition exact_run (window : Z) (ts : list Z) : Prop :=
  ts <> [] /\ strictly_increasing ts = true /\
  List.last ts 0 - List.hd 0 ts = window * 3600.

(** [realtime] called on each station in turn with the defaults of its
    signature, collecting what it returns. *)
Fixpoint realtime_each (requests_get : Z -> response) (bp_realtime_spec : Z -> list rt_row)
    (api_query : string * string -> footprint -> Z * Z ->
                 string -> string -> string -> string -> products)
    (username password : string) (swell_height : pyfloat) (stations : list Z)
  : M (list (list string)) :=
  match stations with
  | [] => mret []
  | location :: rest =>
      mbind (realtime requests_get bp_realtime_spec api_query location username password
               swell_height 24 (Fin (99 # 1)) "Sentinel-1" "VV" "SLC" "IW" "off")
        (fun titles =>
           mbind (realtime_each requests_get bp_realtime_spec api_query
                    username password swell_height rest)
             (fun others => mret (titles :: others)))
  end.

(** A world for running the script: a station page with a coordinate, two
    qualifying rows a day apart (newest first, as NDBC lists them), and a
    catalog that answers every query with the same two products. *)
Definition sample_get : Z -> response :=
  fun _ => mk_response 200 "41.2 N 72.6 W".

Definition sample_spec : Z -> list rt_row :=
  fun _ => [mk_rt_row 86400 (Fin (2 # 1)) (Fin (1 # 1));
            mk_rt_row 0 (Fin (2 # 1)) (Fin (1 # 1))].

Definition sample_stand_meteo : Z -> Z -> list h_row :=
  fun _ _ => [mk_h_row 0 (Fin (2 # 1)); mk_h_row 86400 (Fin (2 # 1))].

Definition sample_query :
  string * string -> footprint -> Z * Z -> string -> string -> string -> string -> products :=
  fun _ _ _ _ _ _ _ =>
    [("a1", mk_product "S1A_IW_SLC"); ("b2", mk_product "S1B_IW_SLC")]%string.

(** A list of events in which each event ends where it starts or later, and
    each starts after the one before it has ended, "later" and "after" being
    the relation [R] on timestamps. *)
Definition chained (R : Z -> Z -> Prop) (ev : list (Z * Z)) : Prop :=
  Forall (fun e => fst e = snd e \/ R (fst e) (snd e)) ev /\
  StronglySorted (fun e1 e2 => R (snd e1) (fst e2)) ev.

(** The state of the specification's scan is in order, and before every
    timestamp still to come. *)
Definition in_order (R : Z -> Z -> Prop) (st : spec_state) (coming : list Z) : Prop :=
  chained R (events st) /\
  StronglySorted R (accumulator st) /\
  Forall (fun e => Forall (R (snd e)) (accumulator st)) (events st) /\
  Forall (fun t' => Forall (fun e => R (snd e) t') (events st) /\
                    Forall (fun x => R x t') (accumulator st)) coming.


(** A computation that only prints: from any trace it leaves the trace it was
    given followed by printed lines. *)
Definition only_prints {A : Type} (c : M A) : Prop :=
  forall tr, exists added,
    snd (c tr) = tr ++ added /\ Forall (fun e => exists m, e = Print m) added.

(* ================================================================== *)
(** * Properties *)

(** ** Lists and loops *)

Lemma getitem_app_here {A : Type} (l1 l2 : list A) (x : A) :
  getitem (l1 ++ x :: l2) (List.length l1) = Ok x.
Proof.
  unfold getitem. rewrite nth_error_app2 by lia.
  now rewrite Nat.sub_diag.
Qed.

Lemma at_pos_here {R A : Type} (col : R -> A) (l1 l2 : list R) (r : R) :
  at_pos col (l1 ++ r :: l2) (List.length l1) = Ok (col r).
Proof.
  unfold at_pos. rewrite map_app. cbn [map].
  rewrite <- (length_map col l1). apply getitem_app_here.
Qed.

Lemma getitem_last_snoc {A : Type} (l : list A) (x : A) :
  getitem_last (l ++ [x]) = Ok x.
Proof. unfold getitem_last. now rewrite rev_unit. Qed.

Lemma getitem_first_snoc {A : Type} (l : list A) (x : A) :
  getitem (l ++ [x]) 0 = Ok (List.hd x l).
Proof. destruct l; reflexivity. Qed.

Lemma last_snoc {A : Type} (l : list A) (x d : A) : List.last (l ++ [x]) d = x.
Proof. apply last_last. Qed.

(** ** Both loops compute the specification's scan *)

Ltac view_eq :=
  unfold realtime_view, historic_view; cbn; rewrite ?map_app; reflexivity.

Lemma realtime_body_step (l1 l2 : list rt_row) (r : rt_row) (sh ww : pyfloat) (w : Z)
    (sp : spec_state) :
  realtime_scan_body (l1 ++ r :: l2) sh ww w (List.length l1) (realtime_view sp)
  = Ok (realtime_view (spec_step w sp (rt_time r, rt_holds sh ww r))).
Proof.
  unfold realtime_scan_body, spec_step, rt_holds.
  rewrite !at_pos_here. cbn [rbind].
  destruct (fge (SwH r) sh); cbn [rbind andb]; [|reflexivity].
  destruct (fle (WWH r) ww); [|reflexivity].
  cbn [realtime_view swell_event first_date last_date].
  rewrite getitem_first_snoc, getitem_last_snoc. cbn [rbind].
  destruct (accumulator sp) as [|a acc]; cbn [app List.hd].
  - cbn [List.last]. unfold elapsed.
    replace (rt_time r - rt_time r) with 0 by lia.
    destruct (w * 3600 <=? Z.abs 0); view_eq.
  - rewrite last_snoc. unfold elapsed.
    replace (Z.abs (a - rt_time r)) with (Z.abs (rt_time r - a)) by lia.
    destruct (w * 3600 <=? Z.abs (rt_time r - a)); view_eq.
Qed.

Lemma historic_body_step (l1 l2 : list h_row) (r : h_row) (wh : pyfloat) (w : Z)
    (sp : spec_state) :
  historic_scan_body (l1 ++ r :: l2) wh w (List.length l1) (historic_view sp)
  = Ok (historic_view (spec_step w sp (h_time r, h_holds wh r))).
Proof.
  unfold historic_scan_body, spec_step, h_holds.
  rewrite !at_pos_here. cbn [rbind].
  destruct (fge (WVHT r) wh); [|reflexivity].
  cbn [historic_view swell_event first_date last_date].
  rewrite getitem_first_snoc, getitem_last_snoc. cbn [rbind].
  destruct (accumulator sp) as [|a acc]; cbn [app List.hd].
  - cbn [List.last]. unfold elapsed.
    replace (h_time r - h_time r) with 0 by lia.
    destruct (w * 3600 <=? Z.abs 0); view_eq.
  - rewrite last_snoc. unfold elapsed.
    replace (Z.abs (a - h_time r)) with (Z.abs (h_time r - a)) by lia.
    destruct (w * 3600 <=? Z.abs (h_time r - a)); view_eq.
Qed.

Lemma realtime_loop_from (sh ww : pyfloat) (w : Z) (l2 l1 : list rt_row) (sp : spec_state) :
  for_each (realtime_scan_body (l1 ++ l2) sh ww w) (seq (List.length l1) (List.length l2))
    (realtime_view sp)
  = Ok (realtime_view (fold_left (spec_step w) (rt_samples sh ww l2) sp)).
Proof.
  revert l1 sp. induction l2 as [|r l2 IH]; intros l1 sp; [reflexivity|].
  cbn [List.length seq for_each rt_samples map fold_left].
  rewrite realtime_body_step.
  replace (l1 ++ r :: l2) with ((l1 ++ [r]) ++ l2) by now rewrite <- app_assoc.
  replace (S (List.length l1)) with (List.length (l1 ++ [r]))
    by (rewrite length_app; cbn; lia).
  apply IH.
Qed.

Lemma historic_loop_from (wh : pyfloat) (w : Z) (l2 l1 : list h_row) (sp : spec_state) :
  for_each (historic_scan_body (l1 ++ l2) wh w) (seq (List.length l1) (List.length l2))
    (historic_view sp)
  = Ok (historic_view (fold_left (spec_step w) (h_samples wh l2) sp)).
Proof.
  revert l1 sp. induction l2 as [|r l2 IH]; intros l1 sp; [reflexivity|].
  cbn [List.length seq for_each h_samples map fold_left].
  rewrite historic_body_step.
  replace (l1 ++ r :: l2) with ((l1 ++ [r]) ++ l2) by now rewrite <- app_assoc.
  replace (S (List.length l1)) with (List.length (l1 ++ [r]))
    by (rewrite length_app; cbn; lia).
  apply IH.
Qed.

Lemma realtime_scan_spec (spec : list rt_row) (sh ww : pyfloat) (w : Z) :
  realtime_scan spec sh ww w = Ok (realtime_view (spec_scan w (rt_samples sh ww spec))).
Proof. exact (realtime_loop_from sh ww w spec [] spec_init). Qed.

Lemma historic_scan_spec (data : list h_row) (wh : pyfloat) (w : Z) :
  historic_scan data wh w = Ok (historic_view (spec_scan w (h_samples wh data))).
Proof. exact (historic_loop_from wh w data [] spec_init). Qed.

(** C1.  Both windowing loops follow the algorithm of the specification: run
    over the samples in order from an empty accumulator, a sample that
    satisfies the predicate (SwH >= swell_height and WWH <= wind_wave_height in
    [realtime], WVHT >= wave_height in [historic]) is appended, one that does
    not empties the accumulator, and when after an append the time elapsed
    between the accumulator's first and last element reaches window*3600
    seconds one event with these two endpoints is recorded and the accumulator
    emptied.  Neither loop raises. *)
Theorem scan_follows_spec_algorithm :
  forall (spec : list rt_row) (data : list h_row)
         (swell_height wind_wave_height wave_height : pyfloat) (window : Z),
    realtime_scan spec swell_height wind_wave_height window
    = Ok (realtime_view
            (fold_left (spec_step window)
               (map (fun r => (rt_time r,
                               fge (SwH r) swell_height && fle (WWH r) wind_wave_height))
                  spec)
               spec_init))
    /\
    historic_scan data wave_height window
    = Ok (historic_view
            (fold_left (spec_step window)
               (map (fun r => (h_time r, fge (WVHT r) wave_height)) data)
               spec_init)).
Proof.
  intros. split.
  - apply realtime_scan_spec.
  - apply historic_scan_spec.
Qed.

(** ** The specification's scan: events already emitted do not matter *)

Lemma spec_step_events (w : Z) (acc : list Z) (ev : list (Z * Z)) (s : Z * bool) :
  spec_step w (mk_spec acc ev) s
  = mk_spec (accumulator (spec_step w (mk_spec acc []) s))
            (ev ++ events (spec_step w (mk_spec acc []) s)).
Proof.
  destruct s as [t holds]. unfold spec_step. cbn [accumulator events].
  destruct holds; [|now rewrite app_nil_r].
  destruct (acc ++ [t]) as [|first rest]; [now rewrite app_nil_r|].
  destruct (w * 3600 <=? elapsed first (List.last rest first)); cbn;
    now rewrite ?app_nil_r.
Qed.

Lemma spec_fold_events (w : Z) (l : list (Z * bool)) :
  forall acc ev,
    fold_left (spec_step w) l (mk_spec acc ev)
    = mk_spec (accumulator (fold_left (spec_step w) l (mk_spec acc [])))
              (ev ++ events (fold_left (spec_step w) l (mk_spec acc []))).
Proof.
  induction l as [|s l IH]; intros acc ev; cbn [fold_left].
  - cbn. now rewrite app_nil_r.
  - rewrite spec_step_events.
    destruct (spec_step w (mk_spec acc []) s) as [acc1 new1] eqn:E1. cbn [accumulator events].
    rewrite IH. rewrite (IH acc1 new1). cbn [accumulator events].
    now rewrite app_assoc.
Qed.

Lemma spec_scan_app (w : Z) (pre post : list (Z * bool)) :
  accumulator (spec_scan w pre) = [] ->
  spec_scan w (pre ++ post)
  = mk_spec (accumulator (spec_scan w post))
            (events (spec_scan w pre) ++ events (spec_scan w post)).
Proof.
  intros Hacc. unfold spec_scan in *. rewrite fold_left_app.
  destruct (fold_left (spec_step w) pre spec_init) as [acc ev]. cbn in Hacc. subst acc.
  now rewrite spec_fold_events.
Qed.

(** ** Samples that all fail: no event *)

Lemma spec_all_fail (w : Z) (l : list (Z * bool)) (ev : list (Z * Z)) :
  Forall (fun s => snd s = false) l ->
  fold_left (spec_step w) l (mk_spec [] ev) = mk_spec [] ev.
Proof.
  induction 1 as [|[t holds] l Hs _ IH]; [reflexivity|].
  cbn in Hs. subst holds. exact IH.
Qed.

Lemma flt_not_fge (x y : pyfloat) : flt x y -> fge x y = false.
Proof.
  destruct x as [a|], y as [b|]; cbn; try tauto.
  intros Hlt. destruct (Qle_bool b a) eqn:E; [|reflexivity].
  apply Qle_bool_iff in E. exfalso. exact (Qlt_not_le _ _ Hlt E).
Qed.

(** ** A run that lasts exactly the window *)

Lemma increasing_tail (x : Z) (l : list Z) :
  strictly_increasing (x :: l) = true -> strictly_increasing l = true.
Proof.
  destruct l as [|y l]; [reflexivity|].
  cbn [strictly_increasing]. intros H. now apply andb_prop in H.
Qed.

Lemma increasing_lt_last (l : list Z) :
  forall x d, l <> [] -> strictly_increasing (x :: l) = true -> x < List.last l d.
Proof.
  induction l as [|y l IH]; intros x d Hne Hinc; [congruence|].
  cbn [strictly_increasing] in Hinc. apply andb_prop in Hinc as [Hxy Hrest].
  apply Z.ltb_lt in Hxy.
  destruct l as [|z l]; [exact Hxy|].
  specialize (IH y d ltac:(discriminate) Hrest).
  change (List.last (y :: z :: l) d) with (List.last (z :: l) d). lia.
Qed.

Lemma spec_run_tail (w : Z) (rem : list Z) :
  forall t0 mid ev,
    rem <> [] ->
    strictly_increasing (t0 :: rem) = true ->
    List.last rem 0 - t0 = w * 3600 ->
    fold_left (spec_step w) (map (fun t => (t, true)) rem) (mk_spec (t0 :: mid) ev)
    = mk_spec [] (ev ++ [(t0, List.last rem 0)]).
Proof.
  induction rem as [|x rem IH]; intros t0 mid ev Hne Hinc Hlast; [congruence|].
  cbn [map fold_left]. unfold spec_step at 2. cbn [accumulator events app].
  rewrite last_snoc. unfold elapsed.
  pose proof Hinc as Hinc'.
  cbn [strictly_increasing] in Hinc'. apply andb_prop in Hinc' as [Ht0x Hrest].
  apply Z.ltb_lt in Ht0x.
  destruct rem as [|y rem].
  - cbn [List.last] in *. cbn [map fold_left].
    destruct (Z.leb_spec (w * 3600) (Z.abs (x - t0))); [reflexivity | lia].
  - assert (Hx : x < List.last (y :: rem) 0)
      by (apply increasing_lt_last; [discriminate | exact Hrest]).
    change (List.last (x :: y :: rem) 0) with (List.last (y :: rem) 0) in *.
    destruct (Z.leb_spec (w * 3600) (Z.abs (x - t0))); [lia|].
    apply (IH t0 (mid ++ [x]) ev); [discriminate | | exact Hlast].
    cbn [strictly_increasing] in Hrest |- *. apply andb_prop in Hrest as [Hxy Hrest].
    apply Z.ltb_lt in Hxy. apply andb_true_intro. split; [apply Z.ltb_lt; lia | exact Hrest].
Qed.

Lemma spec_exact_run (w : Z) (ts : list Z) :
  exact_run w ts ->
  spec_scan w (map (fun t => (t, true)) ts) = mk_spec [] [(List.hd 0 ts, List.last ts 0)].
Proof.
  intros (Hne & Hinc & Hlen). destruct ts as [|t0 rest]; [congruence|].
  cbn [List.hd] in *. unfold spec_scan, spec_init. cbn [map fold_left].
  unfold spec_step at 2. cbn [accumulator events app List.last]. unfold elapsed.
  replace (t0 - t0) with 0 by lia.
  destruct rest as [|x rest].
  - cbn [List.last] in Hlen. cbn [map fold_left List.last].
    destruct (Z.leb_spec (w * 3600) (Z.abs 0)); [reflexivity | lia].
  - change (List.last (t0 :: x :: rest) 0) with (List.last (x :: rest) 0) in *.
    assert (Hx : t0 < List.last (x :: rest) 0)
      by (apply increasing_lt_last; [discriminate | exact Hinc]).
    destruct (Z.leb_spec (w * 3600) (Z.abs 0)); [lia|].
    now rewrite spec_run_tail.
Qed.

Lemma rt_samples_app (sh ww : pyfloat) (l1 l2 : list rt_row) :
  rt_samples sh ww (l1 ++ l2) = rt_samples sh ww l1 ++ rt_samples sh ww l2.
Proof. apply map_app. Qed.

Lemma h_samples_app (wh : pyfloat) (l1 l2 : list h_row) :
  h_samples wh (l1 ++ l2) = h_samples wh l1 ++ h_samples wh l2.
Proof. apply map_app. Qed.

Lemma rt_samples_holding (sh ww : pyfloat) (run : list rt_row) :
  forallb (rt_holds sh ww) run = true ->
  rt_samples sh ww run = map (fun t => (t, true)) (map rt_time run).
Proof.
  induction run as [|r run IH]; [reflexivity|].
  cbn [forallb]. intros H. apply andb_prop in H as [Hr Hrun].
  cbn [rt_samples map]. rewrite Hr. f_equal. now apply IH.
Qed.

Lemma h_samples_holding (wh : pyfloat) (run : list h_row) :
  forallb (h_holds wh) run = true ->
  h_samples wh run = map (fun t => (t, true)) (map h_time run).
Proof.
  induction run as [|r run IH]; [reflexivity|].
  cbn [forallb]. intros H. apply andb_prop in H as [Hr Hrun].
  cbn [h_samples map]. rewrite Hr. f_equal. now apply IH.
Qed.

Lemma spec_scan_around (w : Z) (pre post : list (Z * bool)) (ts : list Z) :
  accumulator (spec_scan w pre) = [] ->
  exact_run w ts ->
  spec_scan w (pre ++ map (fun t => (t, true)) ts ++ post)
  = mk_spec (accumulator (spec_scan w post))
            (events (spec_scan w pre)
             ++ (List.hd 0 ts, List.last ts 0) :: events (spec_scan w post)).
Proof.
  intros Hpre Hrun.
  rewrite (spec_scan_app w pre _ Hpre).
  rewrite (spec_scan_app w (map (fun t => (t, true)) ts) post);
    rewrite (spec_exact_run w ts Hrun); reflexivity.
Qed.

Lemma historic_exact_run (pre run post : list h_row) (wh : pyfloat) (w : Z)
    (s_pre s_post : scan_state) :
  historic_scan pre wh w = Ok s_pre ->
  swell_event s_pre = [] ->
  forallb (h_holds wh) run = true ->
  exact_run w (map h_time run) ->
  historic_scan post wh w = Ok s_post ->
  historic_scan (pre ++ run ++ post) wh w
  = Ok (mk_scan (swell_event s_post)
          (first_date s_pre ++ List.hd 0 (map h_time run) :: first_date s_post)
          (last_date s_pre ++ List.last (map h_time run) 0 :: last_date s_post)).
Proof.
  rewrite !historic_scan_spec. intros Hpre Hacc Hholds Hrun Hpost.
  injection Hpre as <-. injection Hpost as <-. cbn in Hacc.
  rewrite !h_samples_app, (h_samples_holding wh run Hholds).
  rewrite (spec_scan_around w _ _ _ Hacc Hrun).
  unfold historic_view. cbn. now rewrite !map_app.
Qed.

Lemma realtime_exact_run (pre run post : list rt_row) (sh ww : pyfloat) (w : Z)
    (s_pre s_post : scan_state) :
  realtime_scan pre sh ww w = Ok s_pre ->
  swell_event s_pre = [] ->
  forallb (rt_holds sh ww) run = true ->
  exact_run w (map rt_time run) ->
  realtime_scan post sh ww w = Ok s_post ->
  realtime_scan (pre ++ run ++ post) sh ww w
  = Ok (mk_scan (swell_event s_post)
          (first_date s_pre ++ List.last (map rt_time run) 0 :: first_date s_post)
          (last_date s_pre ++ List.hd 0 (map rt_time run) :: last_date s_post)).
Proof.
  rewrite !realtime_scan_spec. intros Hpre Hacc Hholds Hrun Hpost.
  injection Hpre as <-. injection Hpost as <-. cbn in Hacc.
  rewrite !rt_samples_app, (rt_samples_holding sh ww run Hholds).
  rewrite (spec_scan_around w _ _ _ Hacc Hrun).
  unfold realtime_view. cbn. now rewrite !map_app.
Qed.

(** The series of the specification's example: six hourly rows from [t0]. *)
Lemma hourly_run_exact (t0 : Z) :
  exact_run 3 [t0; t0 + 3600; t0 + 7200; t0 + 10800].
Proof.
  repeat split.
  - discriminate.
  - cbn. rewrite !andb_true_r.
    repeat (apply andb_true_intro; split); apply Z.ltb_lt; lia.
  - cbn. lia.
Qed.

(** C2.  Six hourly rows from [t0] of which exactly the first four satisfy the
    predicate, window 3 hours: one event, recorded when the fourth row is
    read, whose endpoints are [t0] and [t0 + 3h] ([historic] records them as
    (first, last), [realtime] as (last, first)); the accumulator was emptied,
    nothing else is recorded.  In general, a run of rows that all satisfy the
    predicate, in increasing time order and lasting exactly the window, read
    from an empty accumulator, records exactly one event, with the run's first
    and last timestamps, between what the rows before it and the rows after
    it record. *)
Theorem exact_window_run_one_event :
  (forall (t0 : Z) (wh v0 v1 v2 v3 v4 v5 : pyfloat),
      fge v0 wh = true -> fge v1 wh = true -> fge v2 wh = true -> fge v3 wh = true ->
      fge v4 wh = false -> fge v5 wh = false ->
      historic_scan
        [mk_h_row t0 v0; mk_h_row (t0 + 3600) v1; mk_h_row (t0 + 7200) v2;
         mk_h_row (t0 + 10800) v3; mk_h_row (t0 + 14400) v4; mk_h_row (t0 + 18000) v5]
        wh 3
      = Ok (mk_scan [] [t0] [t0 + 10800]))
  /\
  (forall (t0 : Z) (sh ww : pyfloat) (r0 r1 r2 r3 r4 r5 : pyfloat * pyfloat),
      let row t (v : pyfloat * pyfloat) := mk_rt_row t (fst v) (snd v) in
      let holds (v : pyfloat * pyfloat) := fge (fst v) sh && fle (snd v) ww in
      holds r0 = true -> holds r1 = true -> holds r2 = true -> holds r3 = true ->
      holds r4 = false -> holds r5 = false ->
      realtime_scan
        [row t0 r0; row (t0 + 3600) r1; row (t0 + 7200) r2;
         row (t0 + 10800) r3; row (t0 + 14400) r4; row (t0 + 18000) r5]
        sh ww 3
      = Ok (mk_scan [] [t0 + 10800] [t0]))
  /\
  (forall (pre run post : list h_row) (wh : pyfloat) (window : Z)
          (s_pre s_post : scan_state),
      historic_scan pre wh window = Ok s_pre ->
      swell_event s_pre = [] ->
      forallb (fun r => fge (WVHT r) wh) run = true ->
      exact_run window (map h_time run) ->
      historic_scan post wh window = Ok s_post ->
      historic_scan (pre ++ run ++ post) wh window
      = Ok (mk_scan (swell_event s_post)
              (first_date s_pre ++ List.hd 0 (map h_time run) :: first_date s_post)
              (last_date s_pre ++ List.last (map h_time run) 0 :: last_date s_post)))
  /\
  (forall (pre run post : list rt_row) (sh ww : pyfloat) (window : Z)
          (s_pre s_post : scan_state),
      realtime_scan pre sh ww window = Ok s_pre ->
      swell_event s_pre = [] ->
      forallb (fun r => fge (SwH r) sh && fle (WWH r) ww) run = true ->
      exact_run window (map rt_time run) ->
      realtime_scan post sh ww window = Ok s_post ->
      realtime_scan (pre ++ run ++ post) sh ww window
      = Ok (mk_scan (swell_event s_post)
              (first_date s_pre ++ List.last (map rt_time run) 0 :: first_date s_post)
              (last_date s_pre ++ List.hd 0 (map rt_time run) :: last_date s_post))).
Proof.
  split; [|split; [|split]].
  - intros t0 wh v0 v1 v2 v3 v4 v5 H0 H1 H2 H3 H4 H5.
    apply (historic_exact_run []
             [mk_h_row t0 v0; mk_h_row (t0 + 3600) v1; mk_h_row (t0 + 7200) v2;
              mk_h_row (t0 + 10800) v3]
             [mk_h_row (t0 + 14400) v4; mk_h_row (t0 + 18000) v5]
             wh 3 scan_init scan_init).
    + reflexivity.
    + reflexivity.
    + cbn. unfold h_holds. cbn. now rewrite H0, H1, H2, H3.
    + apply hourly_run_exact.
    + rewrite historic_scan_spec. unfold spec_scan, spec_init.
      rewrite spec_all_fail; [reflexivity|].
      repeat constructor; assumption.
  - intros t0 sh ww r0 r1 r2 r3 r4 r5 row holds H0 H1 H2 H3 H4 H5.
    apply (realtime_exact_run []
             [row t0 r0; row (t0 + 3600) r1; row (t0 + 7200) r2; row (t0 + 10800) r3]
             [row (t0 + 14400) r4; row (t0 + 18000) r5]
             sh ww 3 scan_init scan_init).
    + reflexivity.
    + reflexivity.
    + cbn. unfold rt_holds. cbn. fold (holds r0) (holds r1) (holds r2) (holds r3).
      now rewrite H0, H1, H2, H3.
    + apply hourly_run_exact.
    + rewrite realtime_scan_spec. unfold spec_scan, spec_init.
      rewrite spec_all_fail; [reflexivity|].
      repeat constructor; assumption.
  - intros. now apply historic_exact_run.
  - intros. now apply realtime_exact_run.
Qed.

Lemma exact_window_run_one_event_witness :
  historic_scan
    [mk_h_row 0 (Fin (2 # 1)); mk_h_row 3600 (Fin (2 # 1)); mk_h_row 7200 (Fin (2 # 1));
     mk_h_row 10800 (Fin (3 # 1)); mk_h_row 14400 (Fin (1 # 2)); mk_h_row 18000 NaN]
    (Fin (1 # 1)) 3
  = Ok (mk_scan [] [0] [10800])
  /\
  realtime_scan
    [mk_rt_row 0 (Fin (2 # 1)) (Fin (1 # 1)); mk_rt_row 3600 (Fin (2 # 1)) (Fin (1 # 1));
     mk_rt_row 7200 (Fin (2 # 1)) (Fin (1 # 1)); mk_rt_row 10800 (Fin (2 # 1)) (Fin (1 # 1));
     mk_rt_row 14400 (Fin (2 # 1)) (Fin (5 # 1)); mk_rt_row 18000 (Fin (1 # 2)) (Fin (1 # 1))]
    (Fin (1 # 1)) (Fin (3 # 1)) 3
  = Ok (mk_scan [] [10800] [0])
  /\
  historic_scan
    ([mk_h_row 0 (Fin (1 # 2))]
     ++ [mk_h_row 3600 (Fin (2 # 1)); mk_h_row 10800 (Fin (2 # 1))]
     ++ [mk_h_row 14400 (Fin (2 # 1))])
    (Fin (1 # 1)) 2
  = Ok (mk_scan [14400] [3600] [10800])
  /\
  realtime_scan
    ([mk_rt_row 0 (Fin (1 # 2)) (Fin (1 # 1))]
     ++ [mk_rt_row 3600 (Fin (2 # 1)) (Fin (1 # 1)); mk_rt_row 10800 (Fin (2 # 1)) (Fin (1 # 1))]
     ++ [mk_rt_row 14400 (Fin (2 # 1)) (Fin (1 # 1))])
    (Fin (1 # 1)) (Fin (3 # 1)) 2
  = Ok (mk_scan [14400] [10800] [3600]).
Proof.
  destruct exact_window_run_one_event as (Hh & Hr & Hhg & Hrg).
  split; [|split; [|split]].
  - apply Hh; reflexivity.
  - apply (Hr 0 (Fin (1 # 1)) (Fin (3 # 1))
             (Fin (2 # 1), Fin (1 # 1)) (Fin (2 # 1), Fin (1 # 1))
             (Fin (2 # 1), Fin (1 # 1)) (Fin (2 # 1), Fin (1 # 1))
             (Fin (2 # 1), Fin (5 # 1)) (Fin (1 # 2), Fin (1 # 1))); reflexivity.
  - apply (Hhg [mk_h_row 0 (Fin (1 # 2))]
             [mk_h_row 3600 (Fin (2 # 1)); mk_h_row 10800 (Fin (2 # 1))]
             [mk_h_row 14400 (Fin (2 # 1))]
             (Fin (1 # 1)) 2 (mk_scan [] [] []) (mk_scan [14400] [] []));
      try reflexivity.
    repeat split; try reflexivity; discriminate.
  - apply (Hrg [mk_rt_row 0 (Fin (1 # 2)) (Fin (1 # 1))]
             [mk_rt_row 3600 (Fin (2 # 1)) (Fin (1 # 1));
              mk_rt_row 10800 (Fin (2 # 1)) (Fin (1 # 1))]
             [mk_rt_row 14400 (Fin (2 # 1)) (Fin (1 # 1))]
             (Fin (1 # 1)) (Fin (3 # 1)) 2 (mk_scan [] [] []) (mk_scan [14400] [] []));
      try reflexivity.
    repeat split; try reflexivity; discriminate.
Defined.

(** ** The two loops on the same qualifying runs *)

Lemma samples_agree {R R' : Type} (time : R -> Z) (time' : R' -> Z)
    (holds : R -> bool) (holds' : R' -> bool) (l : list R) :
  forall l' : list R',
    map time l = map time' l' ->
    map holds l = map holds' l' ->
    map (fun r => (time r, holds r)) l = map (fun r => (time' r, holds' r)) l'.
Proof.
  induction l as [|r l IH]; intros [|r' l'] Ht Hh; try discriminate; [reflexivity|].
  cbn in *. injection Ht as Ht1 Ht2. injection Hh as Hh1 Hh2.
  rewrite Ht1, Hh1. f_equal. now apply IH.
Qed.

(** C3.  On two frames with the same timestamps and the same rows satisfying
    their predicates, the two loops find the same events, those of the
    specification's scan, whose events are pairs (accumulator's first,
    accumulator's last); [realtime] records each as first_date = the
    accumulator's last timestamp and last_date = its first, [historic] as
    first_date = the accumulator's first and last_date = its last. *)
Theorem scans_record_endpoints_oppositely :
  forall (spec : list rt_row) (data : list h_row)
         (swell_height wind_wave_height wave_height : pyfloat) (window : Z),
    map rt_time spec = map h_time data ->
    map (fun r => fge (SwH r) swell_height && fle (WWH r) wind_wave_height) spec
    = map (fun r => fge (WVHT r) wave_height) data ->
    exists s_rt s_h : scan_state,
      realtime_scan spec swell_height wind_wave_height window = Ok s_rt /\
      historic_scan data wave_height window = Ok s_h /\
      first_date s_h = map fst (events (spec_scan window (h_samples wave_height data))) /\
      last_date s_h = map snd (events (spec_scan window (h_samples wave_height data))) /\
      first_date s_rt = map snd (events (spec_scan window (h_samples wave_height data))) /\
      last_date s_rt = map fst (events (spec_scan window (h_samples wave_height data))) /\
      first_date s_rt = last_date s_h /\
      last_date s_rt = first_date s_h.
Proof.
  intros spec data sh ww wh w Ht Hh.
  exists (realtime_view (spec_scan w (rt_samples sh ww spec))),
         (historic_view (spec_scan w (h_samples wh data))).
  assert (Hs : rt_samples sh ww spec = h_samples wh data)
    by (apply samples_agree; assumption).
  rewrite realtime_scan_spec, historic_scan_spec, Hs.
  repeat split; reflexivity.
Qed.

Lemma scans_record_endpoints_oppositely_witness :
  exists s_rt s_h : scan_state,
    realtime_scan
      [mk_rt_row 0 (Fin (2 # 1)) (Fin (1 # 1)); mk_rt_row 7200 (Fin (2 # 1)) (Fin (1 # 1));
       mk_rt_row 9000 (Fin (1 # 2)) (Fin (1 # 1))]
      (Fin (1 # 1)) (Fin (3 # 1)) 2 = Ok s_rt /\
    historic_scan
      [mk_h_row 0 (Fin (4 # 1)); mk_h_row 7200 (Fin (5 # 1)); mk_h_row 9000 (Fin (1 # 1))]
      (Fin (3 # 1)) 2 = Ok s_h /\
    first_date s_rt = [7200] /\ last_date s_rt = [0] /\
    first_date s_h = [0] /\ last_date s_h = [7200].
Proof.
  destruct (scans_record_endpoints_oppositely
              [mk_rt_row 0 (Fin (2 # 1)) (Fin (1 # 1));
               mk_rt_row 7200 (Fin (2 # 1)) (Fin (1 # 1));
               mk_rt_row 9000 (Fin (1 # 2)) (Fin (1 # 1))]
              [mk_h_row 0 (Fin (4 # 1)); mk_h_row 7200 (Fin (5 # 1));
               mk_h_row 9000 (Fin (1 # 1))]
              (Fin (1 # 1)) (Fin (3 # 1)) (Fin (3 # 1)) 2 eq_refl eq_refl)
    as (s_rt & s_h & Hrt & Hh & Hf & Hl & Hf' & Hl' & _).
  exists s_rt, s_h. repeat split; assumption.
Defined.

(** ** Every sample below the threshold *)

Lemma rt_samples_all_fail (sh ww : pyfloat) (spec : list rt_row) :
  Forall (fun r => flt (SwH r) sh) spec ->
  Forall (fun s => snd s = false) (rt_samples sh ww spec).
Proof.
  induction 1 as [|r l Hr _ IH]; constructor; [|exact IH].
  cbn. unfold rt_holds. now rewrite (flt_not_fge _ _ Hr).
Qed.

Lemma h_samples_all_fail (wh : pyfloat) (data : list h_row) :
  Forall (fun r => flt (WVHT r) wh) data ->
  Forall (fun s => snd s = false) (h_samples wh data).
Proof.
  induction 1 as [|r l Hr _ IH]; constructor; [|exact IH].
  cbn. unfold h_holds. now rewrite (flt_not_fge _ _ Hr).
Qed.

Lemma Forall_filter {A : Type} (P : A -> Prop) (f : A -> bool) (l : list A) :
  Forall P l -> Forall P (filter f l).
Proof.
  induction 1 as [|x l Hx _ IH]; cbn; [constructor|].
  destruct (f x); [constructor|]; assumption.
Qed.

(** C7.  When every primary value is strictly below the primary threshold,
    either loop ends with both of its event lists empty, run on the frame
    itself or behind the filter of the 99.00 rows. *)
Theorem all_below_threshold_no_events :
  (forall (spec : list rt_row) (swell_height wind_wave_height : pyfloat) (window : Z),
      Forall (fun r => flt (SwH r) swell_height) spec ->
      realtime_scan spec swell_height wind_wave_height window = Ok (mk_scan [] [] []) /\
      realtime_windows spec swell_height wind_wave_height window = Ok (mk_scan [] [] []))
  /\
  (forall (data : list h_row) (wave_height : pyfloat) (window : Z),
      Forall (fun r => flt (WVHT r) wave_height) data ->
      historic_scan data wave_height window = Ok (mk_scan [] [] []) /\
      historic_windows data wave_height window = Ok (mk_scan [] [] [])).
Proof.
  split.
  - intros spec sh ww w Hall. unfold realtime_windows.
    rewrite !realtime_scan_spec. unfold spec_scan, spec_init.
    rewrite !spec_all_fail; [split; reflexivity | |];
      apply rt_samples_all_fail; [apply Forall_filter|]; exact Hall.
  - intros data wh w Hall. unfold historic_windows.
    rewrite !historic_scan_spec. unfold spec_scan, spec_init.
    rewrite !spec_all_fail; [split; reflexivity | |];
      apply h_samples_all_fail; [apply Forall_filter|]; exact Hall.
Qed.

Lemma all_below_threshold_no_events_witness :
  realtime_scan
    [mk_rt_row 0 (Fin (1 # 2)) (Fin (1 # 1)); mk_rt_row 3600 (Fin (3 # 4)) (Fin (1 # 1))]
    (Fin (1 # 1)) (Fin (99 # 1)) 0 = Ok (mk_scan [] [] [])
  /\
  historic_scan [mk_h_row 0 (Fin (1 # 2)); mk_h_row 3600 (Fin (3 # 4))] (Fin (1 # 1)) 0
  = Ok (mk_scan [] [] []).
Proof.
  destruct all_below_threshold_no_events as [Hrt Hh].
  split.
  - apply Hrt. repeat constructor.
  - apply Hh. repeat constructor.
Defined.

(** ** Events span at least the window *)

Lemma combine_map {A B C : Type} (f : A -> B) (g : A -> C) (l : list A) :
  combine (map f l) (map g l) = map (fun x => (f x, g x)) l.
Proof. induction l as [|x l IH]; cbn; [reflexivity | now rewrite IH]. Qed.

Lemma spec_step_span (w : Z) (st : spec_state) (s : Z * bool) :
  Forall (fun e => w * 3600 <= elapsed (fst e) (snd e)) (events st) ->
  Forall (fun e => w * 3600 <= elapsed (fst e) (snd e)) (events (spec_step w st s)).
Proof.
  intros Hev. destruct s as [t holds]. unfold spec_step.
  destruct holds; [|exact Hev].
  destruct (accumulator st ++ [t]) as [|first rest]; [exact Hev|].
  destruct (Z.leb_spec (w * 3600) (elapsed first (List.last rest first))); [|exact Hev].
  cbn [events]. apply Forall_app. split; [exact Hev|].
  constructor; [assumption | constructor].
Qed.

Lemma spec_fold_span (w : Z) (l : list (Z * bool)) :
  forall st,
    Forall (fun e => w * 3600 <= elapsed (fst e) (snd e)) (events st) ->
    Forall (fun e => w * 3600 <= elapsed (fst e) (snd e))
      (events (fold_left (spec_step w) l st)).
Proof.
  induction l as [|s l IH]; intros st Hev; [exact Hev|].
  cbn [fold_left]. apply IH. now apply spec_step_span.
Qed.

Lemma spec_scan_distinct (w : Z) (l : list (Z * bool)) (a b : Z) :
  0 < w -> In (a, b) (events (spec_scan w l)) -> a <> b.
Proof.
  intros Hw Hin.
  pose proof (spec_fold_span w l spec_init (Forall_nil _)) as Hspan.
  rewrite Forall_forall in Hspan. specialize (Hspan _ Hin).
  cbn in Hspan. unfold elapsed in Hspan. lia.
Qed.

Lemma spec_scan_two (w t1 t2 : Z) :
  0 < w -> w * 3600 <= Z.abs (t1 - t2) ->
  spec_scan w [(t1, true); (t2, true)] = mk_spec [] [(t1, t2)].
Proof.
  intros Hw Hspan. unfold spec_scan, spec_init. cbn [fold_left].
  unfold spec_step at 2. cbn [accumulator events app List.last]. unfold elapsed.
  replace (t1 - t1) with 0 by lia.
  destruct (Z.leb_spec (w * 3600) (Z.abs 0)); [lia|].
  unfold spec_step. cbn [accumulator events app List.last]. unfold elapsed.
  destruct (Z.leb_spec (w * 3600) (Z.abs (t2 - t1))); [reflexivity | lia].
Qed.

Lemma spec_scan_first_two (w t1 t2 : Z) (pre post : list (Z * bool)) :
  0 < w -> w * 3600 <= Z.abs (t1 - t2) ->
  Forall (fun s => snd s = false) pre ->
  spec_scan w (pre ++ (t1, true) :: (t2, true) :: post)
  = mk_spec (accumulator (spec_scan w post)) ((t1, t2) :: events (spec_scan w post)).
Proof.
  intros Hw Hspan Hpre.
  assert (Hp : spec_scan w pre = spec_init) by now apply spec_all_fail.
  rewrite spec_scan_app by now rewrite Hp.
  rewrite Hp. cbn [events spec_init app].
  change ((t1, true) :: (t2, true) :: post) with ([(t1, true); (t2, true)] ++ post).
  rewrite spec_scan_app; rewrite spec_scan_two by assumption; reflexivity.
Qed.

Lemma samples_failing {R : Type} (time : R -> Z) (holds : R -> bool) (l : list R) :
  forallb (fun r => negb (holds r)) l = true ->
  Forall (fun s => snd s = false) (map (fun r => (time r, holds r)) l).
Proof.
  induction l as [|r l IH]; cbn [forallb map]; intros H; constructor.
  - apply andb_prop in H as [H _]. cbn. now destruct (holds r).
  - apply IH. now apply andb_prop in H.
Qed.

(** C6, as the code has it.  With a window of at least one hour no recorded
    event has two equal endpoints: a first qualifying row alone is kept in the
    accumulator, its elapsed time being 0, and records nothing; and when the
    first two qualifying rows are consecutive and already span the window, the
    first event's endpoints are exactly their two timestamps. *)
Theorem positive_window_no_single_sample_event :
  forall window : Z,
    0 < window ->
    (forall (spec : list rt_row) (sh ww : pyfloat),
        exists st, realtime_scan spec sh ww window = Ok st /\
                   forall a b, In (a, b) (recorded st) -> a <> b)
    /\
    (forall (data : list h_row) (wh : pyfloat),
        exists st, historic_scan data wh window = Ok st /\
                   forall a b, In (a, b) (recorded st) -> a <> b)
    /\
    (forall (r : rt_row) (sh ww : pyfloat),
        fge (SwH r) sh && fle (WWH r) ww = true ->
        elapsed (rt_time r) (rt_time r) = 0 /\
        realtime_scan [r] sh ww window = Ok (mk_scan [rt_time r] [] []))
    /\
    (forall (r : h_row) (wh : pyfloat),
        fge (WVHT r) wh = true ->
        elapsed (h_time r) (h_time r) = 0 /\
        historic_scan [r] wh window = Ok (mk_scan [h_time r] [] []))
    /\
    (forall (pre post : list rt_row) (r1 r2 : rt_row) (sh ww : pyfloat) (s_post : scan_state),
        forallb (fun r => negb (fge (SwH r) sh && fle (WWH r) ww)) pre = true ->
        fge (SwH r1) sh && fle (WWH r1) ww = true ->
        fge (SwH r2) sh && fle (WWH r2) ww = true ->
        window * 3600 <= Z.abs (rt_time r1 - rt_time r2) ->
        realtime_scan post sh ww window = Ok s_post ->
        realtime_scan (pre ++ r1 :: r2 :: post) sh ww window
        = Ok (mk_scan (swell_event s_post)
                (rt_time r2 :: first_date s_post) (rt_time r1 :: last_date s_post)))
    /\
    (forall (pre post : list h_row) (r1 r2 : h_row) (wh : pyfloat) (s_post : scan_state),
        forallb (fun r => negb (fge (WVHT r) wh)) pre = true ->
        fge (WVHT r1) wh = true ->
        fge (WVHT r2) wh = true ->
        window * 3600 <= Z.abs (h_time r1 - h_time r2) ->
        historic_scan post wh window = Ok s_post ->
        historic_scan (pre ++ r1 :: r2 :: post) wh window
        = Ok (mk_scan (swell_event s_post)
                (h_time r1 :: first_date s_post) (h_time r2 :: last_date s_post))).
Proof.
  intros w Hw. repeat apply conj.
  - intros spec sh ww. eexists. split; [apply realtime_scan_spec|].
    intros a b Hin. unfold recorded, realtime_view in Hin. cbn in Hin.
    rewrite combine_map in Hin. apply in_map_iff in Hin as ([x y] & Hxy & Hin).
    cbn in Hxy. injection Hxy as <- <-.
    intros ->. now apply (spec_scan_distinct w _ _ _ Hw Hin).
  - intros data wh. eexists. split; [apply historic_scan_spec|].
    intros a b Hin. unfold recorded, historic_view in Hin. cbn in Hin.
    rewrite combine_map in Hin. apply in_map_iff in Hin as ([x y] & Hxy & Hin).
    cbn in Hxy. injection Hxy as <- <-.
    now apply (spec_scan_distinct w _ _ _ Hw Hin).
  - intros r sh ww Hr. unfold elapsed. split; [lia|].
    rewrite realtime_scan_spec. unfold spec_scan, spec_init, rt_samples, rt_holds.
    cbn [map fold_left]. rewrite Hr. unfold spec_step.
    cbn [accumulator events app List.last]. unfold elapsed.
    destruct (Z.leb_spec (w * 3600) (Z.abs (rt_time r - rt_time r))); [lia | reflexivity].
  - intros r wh Hr. unfold elapsed. split; [lia|].
    rewrite historic_scan_spec. unfold spec_scan, spec_init, h_samples, h_holds.
    cbn [map fold_left]. rewrite Hr. unfold spec_step.
    cbn [accumulator events app List.last]. unfold elapsed.
    destruct (Z.leb_spec (w * 3600) (Z.abs (h_time r - h_time r))); [lia | reflexivity].
  - intros pre post r1 r2 sh ww s_post Hpre H1 H2 Hspan Hpost.
    rewrite realtime_scan_spec in *. injection Hpost as <-.
    rewrite rt_samples_app.
    change (rt_samples sh ww (r1 :: r2 :: post))
      with ((rt_time r1, rt_holds sh ww r1) :: (rt_time r2, rt_holds sh ww r2)
            :: rt_samples sh ww post).
    change (rt_holds sh ww r1 = true) in H1. change (rt_holds sh ww r2 = true) in H2.
    rewrite H1, H2.
    rewrite spec_scan_first_two; [reflexivity | assumption | assumption |].
    apply (samples_failing rt_time (rt_holds sh ww)). exact Hpre.
  - intros pre post r1 r2 wh s_post Hpre H1 H2 Hspan Hpost.
    rewrite historic_scan_spec in *. injection Hpost as <-.
    rewrite h_samples_app.
    change (h_samples wh (r1 :: r2 :: post))
      with ((h_time r1, h_holds wh r1) :: (h_time r2, h_holds wh r2)
            :: h_samples wh post).
    change (h_holds wh r1 = true) in H1. change (h_holds wh r2 = true) in H2.
    rewrite H1, H2.
    rewrite spec_scan_first_two; [reflexivity | assumption | assumption |].
    apply (samples_failing h_time (h_holds wh)). exact Hpre.
Qed.

Lemma positive_window_no_single_sample_event_witness :
  (exists st,
      historic_scan [mk_h_row 0 (Fin (2 # 1)); mk_h_row 3600 (Fin (2 # 1))] (Fin (1 # 1)) 1
      = Ok st /\ forall a b, In (a, b) (recorded st) -> a <> b)
  /\
  historic_scan [mk_h_row 0 (Fin (2 # 1))] (Fin (1 # 1)) 1 = Ok (mk_scan [0] [] [])
  /\
  realtime_scan
    ([mk_rt_row 0 (Fin (1 # 2)) (Fin (1 # 1))]
     ++ mk_rt_row 600 (Fin (2 # 1)) (Fin (1 # 1))
     :: mk_rt_row 4200 (Fin (2 # 1)) (Fin (1 # 1)) :: [])
    (Fin (1 # 1)) (Fin (3 # 1)) 1
  = Ok (mk_scan [] [4200] [600]).
Proof.
  destruct (positive_window_no_single_sample_event 1 eq_refl)
    as (_ & Hdist & _ & Hlone & Hrt2 & _).
  split; [|split].
  - apply Hdist.
  - apply (Hlone (mk_h_row 0 (Fin (2 # 1))) (Fin (1 # 1))). reflexivity.
  - apply (Hrt2 [mk_rt_row 0 (Fin (1 # 2)) (Fin (1 # 1))] []
             (mk_rt_row 600 (Fin (2 # 1)) (Fin (1 # 1)))
             (mk_rt_row 4200 (Fin (2 # 1)) (Fin (1 # 1)))
             (Fin (1 # 1)) (Fin (3 # 1)) (mk_scan [] [] []));
      try reflexivity; cbn; lia.
Defined.

(** With a window of 0 hours one qualifying row is an event of its own, both
    endpoints its timestamp: C6 does not hold for every window.  (And two
    qualifying rows an hour apart with a failing row between them record
    nothing with a window of one hour: the two rows have to be consecutive.) *)
Lemma zero_window_single_sample_event :
  historic_scan [mk_h_row 0 (Fin (2 # 1))] (Fin (1 # 1)) 0 = Ok (mk_scan [] [0] [0]) /\
  realtime_scan [mk_rt_row 0 (Fin (2 # 1)) (Fin (1 # 1))] (Fin (1 # 1)) (Fin (99 # 1)) 0
  = Ok (mk_scan [] [0] [0]) /\
  historic_scan
    [mk_h_row 0 (Fin (2 # 1)); mk_h_row 1800 (Fin (1 # 2)); mk_h_row 3600 (Fin (2 # 1))]
    (Fin (1 # 1)) 1
  = Ok (mk_scan [3600] [] []) /\
  ~ (forall (data : list h_row) (wh : pyfloat) (window : Z) (st : scan_state),
        historic_scan data wh window = Ok st ->
        forall a b, In (a, b) (recorded st) -> a <> b).
Proof.
  split; [reflexivity | split; [reflexivity | split; [reflexivity|]]].
  intros H.
  apply (H [mk_h_row 0 (Fin (2 # 1))] (Fin (1 # 1)) 0 (mk_scan [] [0] [0]) eq_refl 0 0).
  - left. reflexivity.
  - reflexivity.
Qed.

(** ** Rows without a measurement *)

Lemma fne_sentinel (q : Q) : (q == 99 # 1)%Q -> fne (Fin q) sentinel = false.
Proof.
  intros Hq. cbn. apply Qeq_bool_iff in Hq. now rewrite Hq.
Qed.

Lemma last_in_cons {A : Type} (l : list A) (d : A) : In (List.last l d) (d :: l).
Proof.
  revert d. induction l as [|x l IH]; intros d; [now left|].
  destruct l as [|y l]; [right; now left|].
  change (List.last (x :: y :: l) d) with (List.last (y :: l) d).
  destruct (IH d) as [H|H]; [left; exact H | right; right; exact H].
Qed.

Section Provenance.
Variable all : list (Z * bool).

Lemma spec_step_drawn (w : Z) (st : spec_state) (s : Z * bool) :
  In s all -> drawn_from all st -> drawn_from all (spec_step w st s).
Proof.
  intros Hs [Hacc Hev]. destruct s as [t holds]. unfold spec_step, drawn_from.
  destruct holds; [|split; [constructor | exact Hev]].
  assert (Hacc' : Forall (fun t => In (t, true) all) (accumulator st ++ [t]))
    by (apply Forall_app; split; [exact Hacc | now constructor]).
  destruct (accumulator st ++ [t]) as [|first rest]; [split; [constructor | exact Hev]|].
  destruct (w * 3600 <=? elapsed first (List.last rest first)).
  - split; [constructor|]. cbn [events]. apply Forall_app. split; [exact Hev|].
    constructor; [|constructor]. cbn [fst snd].
    rewrite Forall_forall in Hacc'. split.
    + apply Hacc'. now left.
    + apply Hacc'. apply last_in_cons.
  - split; [exact Hacc' | exact Hev].
Qed.

Lemma spec_fold_drawn (w : Z) (l : list (Z * bool)) :
  forall st, incl l all -> drawn_from all st ->
             drawn_from all (fold_left (spec_step w) l st).
Proof.
  induction l as [|s l IH]; intros st Hincl Hst; [exact Hst|].
  cbn [fold_left]. apply IH.
  - intros x Hx. apply Hincl. now right.
  - apply spec_step_drawn; [apply Hincl; now left | exact Hst].
Qed.

Lemma spec_fold_endpoints (w : Z) (l : list (Z * bool)) :
  incl l all ->
  Forall (fun e => In (fst e, true) all /\ In (snd e, true) all)
    (events (fold_left (spec_step w) l spec_init)).
Proof.
  intros Hincl. apply (spec_fold_drawn w l spec_init Hincl).
  split; constructor.
Qed.
End Provenance.

Lemma spec_scan_endpoints (w : Z) (l : list (Z * bool)) (t : Z) :
  In t (map fst (events (spec_scan w l)) ++ map snd (events (spec_scan w l))) ->
  In (t, true) l.
Proof.
  intros Hin.
  pose proof (spec_fold_endpoints l w l (incl_refl l)) as Hev.
  rewrite Forall_forall in Hev. fold (spec_scan w l) in Hev.
  apply in_app_or in Hin as [Hin|Hin];
    apply in_map_iff in Hin as (e & <- & He); now apply Hev.
Qed.

Lemma drop_missing_spec_sentinel (l1 l2 : list rt_row) (r : rt_row) (q : Q) :
  SwH r = Fin q -> (q == 99 # 1)%Q ->
  drop_missing_spec (l1 ++ r :: l2) = drop_missing_spec (l1 ++ l2).
Proof.
  intros Hr Hq. unfold drop_missing_spec.
  rewrite !filter_app. cbn [filter]. now rewrite Hr, (fne_sentinel q Hq).
Qed.

Lemma drop_missing_data_sentinel (l1 l2 : list h_row) (r : h_row) (q : Q) :
  WVHT r = Fin q -> (q == 99 # 1)%Q ->
  drop_missing_data (l1 ++ r :: l2) = drop_missing_data (l1 ++ l2).
Proof.
  intros Hr Hq. unfold drop_missing_data.
  rewrite !filter_app. cbn [filter]. now rewrite Hr, (fne_sentinel q Hq).
Qed.

(** C8.  The rows whose primary value equals 99.00 are dropped before the
    loop runs: a frame with such a row anywhere gives the same accumulator and
    the same events as the frame without it, so the row neither empties the
    accumulator nor ends up in an event; every recorded endpoint is the
    timestamp of a row whose primary value is not 99.00; and [realtime] and
    [historic] themselves return and print the same with the row as without
    it. *)
Theorem sentinel_rows_ignored :
  (forall (l1 l2 : list rt_row) (r : rt_row) (q : Q) (sh ww : pyfloat) (window : Z),
      SwH r = Fin q -> (q == 99 # 1)%Q ->
      realtime_windows (l1 ++ r :: l2) sh ww window
      = realtime_windows (l1 ++ l2) sh ww window)
  /\
  (forall (l1 l2 : list h_row) (r : h_row) (q : Q) (wh : pyfloat) (window : Z),
      WVHT r = Fin q -> (q == 99 # 1)%Q ->
      historic_windows (l1 ++ r :: l2) wh window
      = historic_windows (l1 ++ l2) wh window)
  /\
  (forall (raw : list rt_row) (sh ww : pyfloat) (window : Z),
      exists st,
        realtime_windows raw sh ww window = Ok st /\
        forall t, In t (first_date st ++ last_date st) ->
                  exists r, In r raw /\ fne (SwH r) sentinel = true /\ rt_time r = t)
  /\
  (forall (raw : list h_row) (wh : pyfloat) (window : Z),
      exists st,
        historic_windows raw wh window = Ok st /\
        forall t, In t (first_date st ++ last_date st) ->
                  exists r, In r raw /\ fne (WVHT r) sentinel = true /\ h_time r = t)
  /\
  (forall requests_get (bp bp' : Z -> list rt_row) api_query location username password
          sh window ww platformname polarisationmode producttype sensoroperationalmode
          auto_download (l1 l2 : list rt_row) (r : rt_row) (q : Q) (tr : list effect),
      bp location = l1 ++ r :: l2 -> bp' location = l1 ++ l2 ->
      SwH r = Fin q -> (q == 99 # 1)%Q ->
      realtime requests_get bp api_query location username password sh window ww
        platformname polarisationmode producttype sensoroperationalmode auto_download tr
      = realtime requests_get bp' api_query location username password sh window ww
          platformname polarisationmode producttype sensoroperationalmode auto_download tr)
  /\
  (forall requests_get (bp bp' : Z -> Z -> list h_row) api_query location year
          username password wh window platformname polarisationmode producttype
          sensoroperationalmode auto_download (l1 l2 : list h_row) (r : h_row) (q : Q)
          (tr : list effect),
      bp location year = l1 ++ r :: l2 -> bp' location year = l1 ++ l2 ->
      WVHT r = Fin q -> (q == 99 # 1)%Q ->
      historic requests_get bp api_query location year username password wh window
        platformname polarisationmode producttype sensoroperationalmode auto_download tr
      = historic requests_get bp' api_query location year username password wh window
          platformname polarisationmode producttype sensoroperationalmode auto_download tr).
Proof.
  repeat apply conj; cycle 4.
  - intros until tr. intros Hbp Hbp' Hr Hq. unfold realtime.
    rewrite Hbp, Hbp', (drop_missing_spec_sentinel l1 l2 r q Hr Hq). reflexivity.
  - intros until tr. intros Hbp Hbp' Hr Hq. unfold historic.
    rewrite Hbp, Hbp', (drop_missing_data_sentinel l1 l2 r q Hr Hq). reflexivity.
  - intros l1 l2 r q sh ww w Hr Hq. unfold realtime_windows.
    now rewrite (drop_missing_spec_sentinel l1 l2 r q Hr Hq).
  - intros l1 l2 r q wh w Hr Hq. unfold historic_windows.
    now rewrite (drop_missing_data_sentinel l1 l2 r q Hr Hq).
  - intros raw sh ww w. eexists. split; [apply realtime_scan_spec|].
    intros t Hin. cbn [realtime_view first_date last_date] in Hin.
    assert (Hs : In (t, true) (rt_samples sh ww (drop_missing_spec raw))).
    { apply (spec_scan_endpoints w). apply in_or_app.
      apply in_app_or in Hin. tauto. }
    apply in_map_iff in Hs as (r & Hr & Hin').
    apply filter_In in Hin' as [Hraw Hkeep].
    exists r. injection Hr as Ht _. auto.
  - intros raw wh w. eexists. split; [apply historic_scan_spec|].
    intros t Hin. cbn [historic_view first_date last_date] in Hin.
    assert (Hs : In (t, true) (h_samples wh (drop_missing_data raw))).
    { now apply (spec_scan_endpoints w). }
    apply in_map_iff in Hs as (r & Hr & Hin').
    apply filter_In in Hin' as [Hraw Hkeep].
    exists r. injection Hr as Ht _. auto.
Qed.

Lemma sentinel_rows_ignored_witness :
  realtime_windows
    ([mk_rt_row 0 (Fin (2 # 1)) (Fin (1 # 1))]
     ++ mk_rt_row 1800 (Fin (99 # 1)) (Fin (99 # 1))
     :: [mk_rt_row 3600 (Fin (2 # 1)) (Fin (1 # 1))])
    (Fin (1 # 1)) (Fin (3 # 1)) 1
  = realtime_windows
      ([mk_rt_row 0 (Fin (2 # 1)) (Fin (1 # 1))]
       ++ [mk_rt_row 3600 (Fin (2 # 1)) (Fin (1 # 1))])
      (Fin (1 # 1)) (Fin (3 # 1)) 1
  /\
  historic_windows
    ([mk_h_row 0 (Fin (2 # 1))] ++ mk_h_row 1800 (Fin (990 # 10))
     :: [mk_h_row 3600 (Fin (2 # 1))])
    (Fin (1 # 1)) 1
  = historic_windows ([mk_h_row 0 (Fin (2 # 1))] ++ [mk_h_row 3600 (Fin (2 # 1))])
      (Fin (1 # 1)) 1.
Proof.
  destruct sentinel_rows_ignored as (Hrt & Hh & _ & _ & _ & _).
  split.
  - apply (Hrt _ _ _ (99 # 1)); reflexivity.
  - apply (Hh _ _ _ (990 # 10)); reflexivity.
Defined.

(** ** The coordinate resolver *)

(** On a station page that reads "41.2 N 72.6 W" the resolver returns
    (41.2, -72.6) and prints nothing. *)
Lemma resolver_north_west :
  get_lat_lon_from_ndbcnoaa
    (fun _ => mk_response 200 "<b>Location:</b> 41.2 N 72.6 W<br>") 44039 []
  = (Ok (Some (412 # 10), Some (-726 # 10)), []).
Proof. reflexivity. Qed.

(** A page without the pattern: the null coordinate and a diagnostic. *)
Lemma resolver_pattern_not_found :
  get_lat_lon_from_ndbcnoaa (fun _ => mk_response 200 "<h1>Station not found</h1>") 0 []
  = (Ok (None, None), [Print (Text (PStr "Regex pattern not found... "))]).
Proof. reflexivity. Qed.

(** Whatever the page, a status other than 200 ends in the TypeError of the
    concatenation, before anything is printed or returned. *)
Lemma resolver_bad_status (requests_get : Z -> response) (index : Z) (tr : list effect) :
  status_code (requests_get index) <> 200 ->
  get_lat_lon_from_ndbcnoaa requests_get index tr = (Raise TypeError, tr).
Proof.
  intros Hs. unfold get_lat_lon_from_ndbcnoaa.
  destruct (Z.eqb_spec (status_code (requests_get index)) 200); [contradiction|].
  reflexivity.
Qed.

(** C4.  A fetch answered with status 404: the resolver's diagnostic is built
    by adding the integer status code to a string, which raises TypeError;
    nothing is printed and no (None, None) is returned. *)
Theorem resolver_raises_on_failed_fetch :
  get_lat_lon_from_ndbcnoaa (fun _ => mk_response 404 "Not Found") 41001 []
  = (Raise TypeError, []).
Proof. reflexivity. Qed.

(** C5.  The pattern is searched ignoring case but the hemisphere letters are
    compared with the capitals only: a page that reads "41.2 s 72.6 w" matches
    and the resolver returns (41.2, 72.6), neither coordinate negated, where
    "41.2 S 72.6 W" gives (-41.2, -72.6). *)
Theorem resolver_lowercase_hemisphere_not_negated :
  get_lat_lon_from_ndbcnoaa (fun _ => mk_response 200 "41.2 s 72.6 w") 41001 []
  = (Ok (Some (412 # 10), Some (726 # 10)), [])
  /\
  get_lat_lon_from_ndbcnoaa (fun _ => mk_response 200 "41.2 S 72.6 W") 41001 []
  = (Ok (Some (-412 # 10), Some (-726 # 10)), []).
Proof. split; reflexivity. Qed.

(** ** Titles returned for an event *)

(** C9.  One event whose query matches two products, auto_download 'off':
    the list [realtime] returns, and the one [historic] returns, holds the
    title of the last product only.  The title is appended once per event,
    after the loop over the keys, with the index that loop left behind.  With
    auto_download 'on' both products are handed to download_all and no title
    is returned; with a catalog that matches nothing the list is empty and
    nothing is raised. *)
Theorem last_title_only_is_returned :
  sample_query ("u", "p")%string [] (0, 86400) "Sentinel-1" "VV" "SLC" "IW"
  = [("a1", mk_product "S1A_IW_SLC"); ("b2", mk_product "S1B_IW_SLC")]%string
  /\
  value_of (realtime sample_get sample_spec sample_query 41001 "u" "p" (Fin (1 # 1))
              24 (Fin (99 # 1)) "Sentinel-1" "VV" "SLC" "IW" "off")
  = Ok ["S1B_IW_SLC"%string]
  /\
  value_of (historic sample_get sample_stand_meteo sample_query 41001 2015 "u" "p"
              (Fin (1 # 1)) 24 "Sentinel-1" "VV" "SLC" "IW" "off")
  = Ok ["S1B_IW_SLC"%string]
  /\
  value_of (realtime sample_get sample_spec sample_query 41001 "u" "p" (Fin (1 # 1))
              24 (Fin (99 # 1)) "Sentinel-1" "VV" "SLC" "IW" "on")
  = Ok []
  /\
  In (DownloadAll [("a1", mk_product "S1A_IW_SLC"); ("b2", mk_product "S1B_IW_SLC")]%string)
     (trace_of (realtime sample_get sample_spec sample_query 41001 "u" "p" (Fin (1 # 1))
                  24 (Fin (99 # 1)) "Sentinel-1" "VV" "SLC" "IW" "on"))
  /\
  value_of (realtime sample_get sample_spec (fun _ _ _ _ _ _ _ => []) 41001 "u" "p"
              (Fin (1 # 1)) 24 (Fin (99 # 1)) "Sentinel-1" "VV" "SLC" "IW" "off")
  = Ok [].
Proof.
  repeat apply conj; try (vm_compute; reflexivity).
  vm_compute. tauto.
Qed.

(** ** any_realtime *)

Lemma getitem_in_range {A : Type} (l : list A) (i : nat) :
  (i < List.length l)%nat -> exists x, getitem l i = Ok x.
Proof.
  intros Hi. unfold getitem.
  destruct (nth_error l i) as [x|] eqn:E; [now exists x|].
  apply nth_error_None in E. lia.
Qed.

Section AnyRealtime.
Variable requests_get : Z -> response.
Variable bp_realtime_spec : Z -> list rt_row.
Variable api_query :
  string * string -> footprint -> Z * Z -> string -> string -> string -> string -> products.
Variables username password : string.
Variable swell_height : pyfloat.

(** The loop over the stations, started at any position of the list. *)
Lemma station_loop_from (stations l2 : list Z) :
  forall (l1 : list Z) (k : nat) (acc : list (list string)) (tr : list effect),
    stations = l1 ++ l2 ->
    k = List.length l1 ->
    for_each_M
      (any_realtime_station_body requests_get bp_realtime_spec api_query
         stations username password swell_height)
      (seq k (List.length l2)) acc tr
    = mbind (realtime_each requests_get bp_realtime_spec api_query
               username password swell_height l2)
        (fun r => mret (acc ++ r)) tr.
Proof.
  induction l2 as [|x l2 IH]; intros l1 k acc tr Hst Hk.
  - cbn. unfold mbind, mret. cbn. now rewrite app_nil_r.
  - cbn [List.length seq for_each_M realtime_each].
    unfold any_realtime_station_body at 1.
    unfold mbind, mret, lift. subst stations k. rewrite getitem_app_here.
    destruct (realtime requests_get bp_realtime_spec api_query x username password
                swell_height 24 (Fin (99 # 1)) "Sentinel-1" "VV" "SLC" "IW" "off" tr)
      as [[titles|e] tr1]; [|reflexivity].
    rewrite (IH (l1 ++ [x]) (S (List.length l1)) (acc ++ [titles]) tr1).
    + unfold mbind, mret.
      destruct (realtime_each requests_get bp_realtime_spec api_query
                  username password swell_height l2 tr1) as [[others|e] tr2];
        [|reflexivity].
      now rewrite <- app_assoc.
    + now rewrite <- app_assoc.
    + rewrite length_app. cbn. lia.
Qed.

Lemma realtime_each_length (l : list Z) :
  forall tr r tr',
    realtime_each requests_get bp_realtime_spec api_query username password swell_height l tr
    = (Ok r, tr') ->
    List.length r = List.length l.
Proof.
  induction l as [|x l IH]; intros tr r tr' H.
  - cbn in H. injection H as <- _. reflexivity.
  - cbn [realtime_each] in H. unfold mbind, mret in H.
    destruct (realtime requests_get bp_realtime_spec api_query x username password
                swell_height 24 (Fin (99 # 1)) "Sentinel-1" "VV" "SLC" "IW" "off" tr)
      as [[titles|e] tr1]; [|discriminate].
    destruct (realtime_each requests_get bp_realtime_spec api_query
                username password swell_height l tr1) as [[others|e] tr2] eqn:E;
      [|discriminate].
    injection H as <- _. cbn. f_equal. exact (IH _ _ _ E).
Qed.

(** The summary loop prints and never raises. *)
Lemma summary_loop_value (stations : list Z) (all_products : list (list string))
    (window : Z) (idx : list nat) :
  (forall i, In i idx ->
             (i < List.length all_products)%nat /\ (i < List.length stations)%nat) ->
  forall tr,
    fst (for_each_M (any_realtime_summary_body stations all_products window) idx tt tr)
    = Ok tt.
Proof.
  induction idx as [|i idx IH]; intros Hidx tr; [reflexivity|].
  cbn [for_each_M].
  destruct (Hidx i (or_introl eq_refl)) as [Hall Hst].
  destruct (getitem_in_range all_products i Hall) as [titles Ht].
  destruct (getitem_in_range stations i Hst) as [location Hl].
  assert (Htail : forall j, In j idx ->
            (j < List.length all_products)%nat /\ (j < List.length stations)%nat)
    by (intros j Hj; apply Hidx; now right).
  unfold any_realtime_summary_body at 1.
  unfold mbind, lift. rewrite Ht.
  destruct (negb (List.length titles =? 0)%nat).
  - unfold print, perform. rewrite Hl. apply (IH Htail).
  - unfold mret. apply (IH Htail).
Qed.

Lemma any_realtime_value
    (window : Z) (wind_wave_height : pyfloat)
    (platformname polarisationmode producttype sensoroperationalmode : string)
    (tr : list effect) :
  fst (any_realtime requests_get bp_realtime_spec api_query username password swell_height
         window wind_wave_height platformname polarisationmode producttype
         sensoroperationalmode tr)
  = fst (realtime_each requests_get bp_realtime_spec api_query username password
           swell_height list_of_realtime_buoys_NOAA tr).
Proof.
  unfold any_realtime, for_range_M.
  unfold mbind at 1.
  rewrite (station_loop_from list_of_realtime_buoys_NOAA
             list_of_realtime_buoys_NOAA [] 0%nat [] tr eq_refl eq_refl).
  unfold mbind at 1.
  destruct (realtime_each requests_get bp_realtime_spec api_query username password
              swell_height list_of_realtime_buoys_NOAA tr) as [[r|e] tr1] eqn:E;
    [|reflexivity].
  unfold mret at 1. cbn [app].
  assert (Hr : forall i, In i (seq 0 (List.length r)) ->
             (i < List.length r)%nat /\
             (i < List.length list_of_realtime_buoys_NOAA)%nat).
  { intros i Hi. apply in_seq in Hi. rewrite <- (realtime_each_length _ _ _ _ E). lia. }
  pose proof (summary_loop_value list_of_realtime_buoys_NOAA r window _ Hr) as Hsum.
  unfold mbind, print, perform, mret.
  match goal with
  | |- context [for_each_M ?body ?idx tt ?t] =>
      specialize (Hsum t); destruct (for_each_M body idx tt t) as [[[]|e] tr2]
  end.
  - reflexivity.
  - discriminate Hsum.
Qed.

End AnyRealtime.

(** C10.  What [any_realtime] returns does not depend on its window,
    wind_wave_height, platformname, polarisationmode, producttype and
    sensoroperationalmode arguments: two calls that differ only in these
    return the same value, started from the same trace, because it is what
    [realtime] returns for each station of the list in turn when called with
    the station, the credentials and swell_height and, for the rest, window 24,
    wind_wave_height 99, 'Sentinel-1', 'VV', 'SLC', 'IW' and auto_download
    'off'. *)
Theorem any_realtime_ignores_search_options :
  forall (requests_get : Z -> response) (bp_realtime_spec : Z -> list rt_row)
         (api_query : string * string -> footprint -> Z * Z ->
                      string -> string -> string -> string -> products)
         (username password : string) (swell_height : pyfloat)
         (window window' : Z) (wind_wave_height wind_wave_height' : pyfloat)
         (platformname platformname' polarisationmode polarisationmode' : string)
         (producttype producttype' sensoroperationalmode sensoroperationalmode' : string)
         (tr : list effect),
    fst (any_realtime requests_get bp_realtime_spec api_query username password swell_height
           window wind_wave_height platformname polarisationmode producttype
           sensoroperationalmode tr)
    = fst (any_realtime requests_get bp_realtime_spec api_query username password swell_height
             window' wind_wave_height' platformname' polarisationmode' producttype'
             sensoroperationalmode' tr)
    /\
    fst (any_realtime requests_get bp_realtime_spec api_query username password swell_height
           window wind_wave_height platformname polarisationmode producttype
           sensoroperationalmode tr)
    = fst (realtime_each requests_get bp_realtime_spec api_query username password
             swell_height list_of_realtime_buoys_NOAA tr).
Proof.
  intros. split.
  - now rewrite !any_realtime_value.
  - apply any_realtime_value.
Qed.

(** ** Runs of the model *)

Example py_float_decimal : py_float "72.6" = Ok (726 # 10).
Proof. reflexivity. Qed.

Example regex_search_leftmost :
  Regex.search true regex_pattern "at 41.2 N 72.6 W ("
  = Some ["41"; "."; "2"; " "; "N"; " "; "72"; "."; "6"; " "; "W"]%string.
Proof. reflexivity. Qed.

Example regex_bar_in_class :
  Regex.search true regex_pattern "1.5 | 2.5 |"
  = Some ["1"; "."; "5"; " "; "|"; " "; "2"; "."; "5"; " "; "|"]%string.
Proof. reflexivity. Qed.

Example product_keys_recovered :
  str_keys [("a1", mk_product "x"); ("b2", mk_product "y"); ("c3", mk_product "z")]%string
  = "odict_keys(['a1', 'b2', 'c3'])"%string
  /\
  product_keys_of [("a1", mk_product "x"); ("b2", mk_product "y"); ("c3", mk_product "z")]%string 0
  = Ok (["a1"; "b2"; "c3"]%string, 2%nat).
Proof. split; reflexivity. Qed.

Example realtime_null_coordinate :
  value_of (realtime (fun _ => mk_response 200 "no coordinates here") sample_spec
              sample_query 41001 "u" "p" (Fin (1 # 1)) 24 (Fin (99 # 1))
              "Sentinel-1" "VV" "SLC" "IW" "off")
  = Raise TypeError.
Proof. reflexivity. Qed.

(* ================================================================== *)
(** * Further properties of the code *)

(** ** The windowing loops *)

Lemma spec_step_holds (w : Z) (st : spec_state) (t : Z) :
  spec_step w st (t, true)
  = if w * 3600 <=? elapsed (List.hd t (accumulator st)) t
    then mk_spec [] (events st ++ [(List.hd t (accumulator st), t)])
    else mk_spec (accumulator st ++ [t]) (events st).
Proof.
  unfold spec_step. destruct (accumulator st) as [|a acc]; cbn [app List.hd List.last].
  - reflexivity.
  - now rewrite last_snoc.
Qed.

Lemma spec_step_fails (w : Z) (st : spec_state) (t : Z) :
  spec_step w st (t, false) = mk_spec [] (events st).
Proof. reflexivity. Qed.

Lemma recorded_realtime_view (sp : spec_state) :
  recorded (realtime_view sp) = map (fun e => (snd e, fst e)) (events sp).
Proof. unfold recorded, realtime_view. cbn. apply combine_map. Qed.

Lemma recorded_historic_view (sp : spec_state) :
  recorded (historic_view sp) = events sp.
Proof.
  unfold recorded, historic_view. cbn. rewrite combine_map.
  induction (events sp) as [|[a b] ev IH]; cbn; [reflexivity | now rewrite IH].
Qed.

(** X1.  Every event either loop records spans at least the window, whatever the
    frame, the thresholds and the window; the two lists of endpoints have the
    same length. *)
Theorem recorded_events_span_window :
  (forall (spec : list rt_row) (sh ww : pyfloat) (window : Z),
      exists st,
        realtime_scan spec sh ww window = Ok st /\
        List.length (first_date st) = List.length (last_date st) /\
        Forall (fun e => window * 3600 <= Z.abs (fst e - snd e)) (recorded st))
  /\
  (forall (data : list h_row) (wh : pyfloat) (window : Z),
      exists st,
        historic_scan data wh window = Ok st /\
        List.length (first_date st) = List.length (last_date st) /\
        Forall (fun e => window * 3600 <= Z.abs (fst e - snd e)) (recorded st)).
Proof.
  split.
  - intros spec sh ww w. eexists. split; [apply realtime_scan_spec|]. split.
    + cbn. now rewrite !length_map.
    + rewrite recorded_realtime_view. apply Forall_map.
      pose proof (spec_fold_span w (rt_samples sh ww spec) spec_init (Forall_nil _)) as H.
      revert H. apply Forall_impl. intros [a b]. unfold elapsed. cbn. lia.
  - intros data wh w. eexists. split; [apply historic_scan_spec|]. split.
    + cbn. now rewrite !length_map.
    + rewrite recorded_historic_view.
      pose proof (spec_fold_span w (h_samples wh data) spec_init (Forall_nil _)) as H.
      revert H. apply Forall_impl. intros [a b]. unfold elapsed. cbn. lia.
Qed.

Lemma spec_scan_break (w : Z) (l1 l2 : list (Z * bool)) (t : Z) :
  spec_scan w (l1 ++ (t, false) :: l2)
  = mk_spec (accumulator (spec_scan w l2))
            (events (spec_scan w l1) ++ events (spec_scan w l2)).
Proof.
  change (l1 ++ (t, false) :: l2) with (l1 ++ [(t, false)] ++ l2).
  rewrite app_assoc.
  assert (H : spec_scan w (l1 ++ [(t, false)]) = mk_spec [] (events (spec_scan w l1))).
  { unfold spec_scan. now rewrite fold_left_app. }
  rewrite spec_scan_app; now rewrite H.
Qed.

(** X2.  A row that fails the predicate (a NaN among them) splits the frame: what
    the loop records on the whole frame is what it records on the rows before
    the failing row followed by what it records on the rows after it, and the
    accumulator it ends with is the one of the rows after. *)
Theorem failing_row_splits_frame :
  (forall (l1 l2 : list rt_row) (r : rt_row) (sh ww : pyfloat) (window : Z)
          (s1 s2 : scan_state),
      fge (SwH r) sh && fle (WWH r) ww = false ->
      realtime_scan l1 sh ww window = Ok s1 ->
      realtime_scan l2 sh ww window = Ok s2 ->
      realtime_scan (l1 ++ r :: l2) sh ww window
      = Ok (mk_scan (swell_event s2)
              (first_date s1 ++ first_date s2) (last_date s1 ++ last_date s2)))
  /\
  (forall (l1 l2 : list h_row) (r : h_row) (wh : pyfloat) (window : Z)
          (s1 s2 : scan_state),
      fge (WVHT r) wh = false ->
      historic_scan l1 wh window = Ok s1 ->
      historic_scan l2 wh window = Ok s2 ->
      historic_scan (l1 ++ r :: l2) wh window
      = Ok (mk_scan (swell_event s2)
              (first_date s1 ++ first_date s2) (last_date s1 ++ last_date s2))).
Proof.
  split.
  - intros l1 l2 r sh ww w s1 s2 Hr H1 H2.
    rewrite realtime_scan_spec in *. injection H1 as <-. injection H2 as <-.
    rewrite rt_samples_app.
    change (rt_samples sh ww (r :: l2))
      with ((rt_time r, rt_holds sh ww r) :: rt_samples sh ww l2).
    change (rt_holds sh ww r = false) in Hr. rewrite Hr, spec_scan_break.
    unfold realtime_view. cbn. now rewrite !map_app.
  - intros l1 l2 r wh w s1 s2 Hr H1 H2.
    rewrite historic_scan_spec in *. injection H1 as <-. injection H2 as <-.
    rewrite h_samples_app.
    change (h_samples wh (r :: l2))
      with ((h_time r, h_holds wh r) :: h_samples wh l2).
    change (h_holds wh r = false) in Hr. rewrite Hr, spec_scan_break.
    unfold historic_view. cbn. now rewrite !map_app.
Qed.

Lemma failing_row_splits_frame_witness :
  historic_scan
    ([mk_h_row 0 (Fin (2 # 1)); mk_h_row 3600 (Fin (2 # 1))]
     ++ mk_h_row 5400 NaN
     :: [mk_h_row 7200 (Fin (2 # 1)); mk_h_row 10800 (Fin (2 # 1)); mk_h_row 12600 (Fin (2 # 1))])
    (Fin (1 # 1)) 1
  = Ok (mk_scan [12600] [0; 7200] [3600; 10800])
  /\
  realtime_scan
    ([mk_rt_row 3600 (Fin (2 # 1)) (Fin (1 # 1)); mk_rt_row 0 (Fin (2 # 1)) (Fin (1 # 1))]
     ++ mk_rt_row (-1800) (Fin (2 # 1)) (Fin (7 # 1))
     :: [mk_rt_row (-3600) (Fin (2 # 1)) (Fin (1 # 1))])
    (Fin (1 # 1)) (Fin (3 # 1)) 1
  = Ok (mk_scan [-3600] [0] [3600]).
Proof.
  destruct failing_row_splits_frame as [Hrt Hh]. split.
  - apply (Hh [mk_h_row 0 (Fin (2 # 1)); mk_h_row 3600 (Fin (2 # 1))]
             [mk_h_row 7200 (Fin (2 # 1)); mk_h_row 10800 (Fin (2 # 1));
              mk_h_row 12600 (Fin (2 # 1))]
             (mk_h_row 5400 NaN) (Fin (1 # 1)) 1
             (mk_scan [] [0] [3600]) (mk_scan [12600] [7200] [10800]));
      reflexivity.
  - apply (Hrt [mk_rt_row 3600 (Fin (2 # 1)) (Fin (1 # 1));
                mk_rt_row 0 (Fin (2 # 1)) (Fin (1 # 1))]
             [mk_rt_row (-3600) (Fin (2 # 1)) (Fin (1 # 1))]
             (mk_rt_row (-1800) (Fin (2 # 1)) (Fin (7 # 1))) (Fin (1 # 1)) (Fin (3 # 1)) 1
             (mk_scan [] [0] [3600]) (mk_scan [-3600] [] []));
      reflexivity.
Defined.

(** ** Events in the order of the frame *)

Lemma StronglySorted_snoc {A : Type} (P : A -> A -> Prop) (l : list A) (y : A) :
  StronglySorted P l -> Forall (fun x => P x y) l -> StronglySorted P (l ++ [y]).
Proof.
  induction 1 as [|x l Hl IH Hx]; intros Hy; cbn.
  - repeat constructor.
  - inversion Hy as [|? ? Hxy Hly]; subst. constructor; [now apply IH|].
    apply Forall_app. split; [exact Hx | now constructor].
Qed.

Lemma StronglySorted_map {A B : Type} (P : B -> B -> Prop) (f : A -> B) (l : list A) :
  StronglySorted (fun x y => P (f x) (f y)) l -> StronglySorted P (map f l).
Proof.
  induction 1 as [|x l Hl IH Hx]; cbn; constructor; [exact IH|].
  now apply Forall_map.
Qed.

Lemma hd_default_or_in {A : Type} (l : list A) (d : A) :
  (l = [] /\ List.hd d l = d) \/ In (List.hd d l) l.
Proof. destruct l; [left; now split | right; now left]. Qed.

Section Chronology.
Variable R : Z -> Z -> Prop.

Lemma spec_step_in_order (w : Z) (st : spec_state) (t : Z) (holds : bool) (coming : list Z) :
  in_order R st (t :: coming) -> Forall (R t) coming ->
  in_order R (spec_step w st (t, holds)) coming.
Proof.
  intros ((Hspan & Hsorted) & Hacc & Hbefore & Hcoming) Ht.
  inversion Hcoming as [|? ? [Hev_t Hacc_t] Hrest]; subst.
  destruct holds.
  - rewrite spec_step_holds.
    destruct (w * 3600 <=? elapsed (List.hd t (accumulator st)) t).
    + (* an event is recorded and the accumulator emptied *)
      repeat split; cbn [events accumulator].
      * apply Forall_app. split; [exact Hspan|]. constructor; [|constructor].
        cbn [fst snd]. destruct (hd_default_or_in (accumulator st) t) as [[_ ->]|Hin].
        -- now left.
        -- right. rewrite Forall_forall in Hacc_t. now apply Hacc_t.
      * apply StronglySorted_snoc; [exact Hsorted|]. cbn [fst snd].
        destruct (hd_default_or_in (accumulator st) t) as [[_ ->]|Hin]; [exact Hev_t|].
        rewrite Forall_forall in Hbefore |- *. intros e He.
        specialize (Hbefore e He). rewrite Forall_forall in Hbefore. now apply Hbefore.
      * constructor.
      * apply Forall_forall. intros e _. constructor.
      * rewrite Forall_forall in Hrest, Ht |- *. intros t' Ht'. split; [|constructor].
        apply Forall_app. split; [apply (Hrest t' Ht')|].
        constructor; [|constructor]. cbn. now apply Ht.
    + (* the timestamp is kept in the accumulator *)
      repeat split; cbn [events accumulator]; try assumption.
      * now apply StronglySorted_snoc.
      * rewrite Forall_forall in Hbefore, Hev_t |- *. intros e He.
        apply Forall_app. split; [now apply Hbefore|].
        constructor; [now apply Hev_t | constructor].
      * rewrite Forall_forall in Hrest, Ht |- *. intros t' Ht'.
        destruct (Hrest t' Ht') as [He Ha]. split; [exact He|].
        apply Forall_app. split; [exact Ha|]. constructor; [now apply Ht | constructor].
  - rewrite spec_step_fails. repeat split; cbn [events accumulator]; try assumption.
    + constructor.
    + apply Forall_forall. intros e _. constructor.
    + rewrite Forall_forall in Hrest |- *. intros t' Ht'.
      split; [apply (Hrest t' Ht') | constructor].
Qed.

Lemma spec_fold_in_order (w : Z) (l : list (Z * bool)) :
  forall st,
    StronglySorted R (map fst l) ->
    in_order R st (map fst l) ->
    in_order R (fold_left (spec_step w) l st) [].
Proof.
  induction l as [|[t holds] l IH]; intros st Hsorted Hst; [exact Hst|].
  cbn [map fst] in *. inversion Hsorted as [|? ? Hl Ht]; subst.
  cbn [fold_left]. apply IH; [exact Hl|].
  now apply spec_step_in_order.
Qed.

Lemma spec_scan_chained (w : Z) (l : list (Z * bool)) :
  StronglySorted R (map fst l) -> chained R (events (spec_scan w l)).
Proof.
  intros Hsorted. apply (spec_fold_in_order w l spec_init Hsorted).
  repeat split; cbn; try constructor.
  apply Forall_forall. intros t' _. split; constructor.
Qed.
End Chronology.

Lemma rt_samples_times (sh ww : pyfloat) (spec : list rt_row) :
  map fst (rt_samples sh ww spec) = map rt_time spec.
Proof. unfold rt_samples. rewrite map_map. reflexivity. Qed.

Lemma h_samples_times (wh : pyfloat) (data : list h_row) :
  map fst (h_samples wh data) = map h_time data.
Proof. unfold h_samples. rewrite map_map. reflexivity. Qed.

(** X3.  On a frame in increasing time order (the yearly files) [historic] records
    events whose first_date is not after their last_date, each event after the
    one before it, none overlapping.  On a frame in decreasing time order every
    event is recorded with its first_date not before its last_date, the
    interval inverted. *)
Theorem historic_events_follow_frame_order :
  (forall (data : list h_row) (wh : pyfloat) (window : Z),
      StronglySorted Z.lt (map h_time data) ->
      exists st,
        historic_scan data wh window = Ok st /\
        Forall (fun e => fst e <= snd e) (recorded st) /\
        StronglySorted (fun e1 e2 => snd e1 < fst e2) (recorded st))
  /\
  (forall (data : list h_row) (wh : pyfloat) (window : Z),
      StronglySorted Z.gt (map h_time data) ->
      exists st,
        historic_scan data wh window = Ok st /\
        Forall (fun e => snd e <= fst e) (recorded st) /\
        StronglySorted (fun e1 e2 => fst e2 < snd e1) (recorded st)).
Proof.
  split; intros data wh w Hsorted; eexists; (split; [apply historic_scan_spec|]);
    rewrite recorded_historic_view;
    rewrite <- (h_samples_times wh) in Hsorted;
    destruct (spec_scan_chained _ w _ Hsorted) as [Hspan Hchain]; split.
  - revert Hspan. apply Forall_impl. intros [a b]. cbn. lia.
  - exact Hchain.
  - revert Hspan. apply Forall_impl. intros [a b]. cbn. lia.
  - revert Hchain. apply StronglySorted_ind; [constructor|].
    intros e l Hl IH He. constructor; [exact IH|].
    revert He. apply Forall_impl. intros e'. lia.
Qed.

Lemma historic_events_follow_frame_order_witness :
  exists st,
    historic_scan
      [mk_h_row 0 (Fin (2 # 1)); mk_h_row 3600 (Fin (2 # 1)); mk_h_row 7200 (Fin (2 # 1));
       mk_h_row 10800 (Fin (2 # 1))]
      (Fin (1 # 1)) 1 = Ok st /\
    Forall (fun e => fst e <= snd e) (recorded st) /\
    StronglySorted (fun e1 e2 => snd e1 < fst e2) (recorded st).
Proof.
  apply (proj1 historic_events_follow_frame_order). cbn.
  repeat constructor.
Defined.

(** X4.  On a frame in decreasing time order (newest row first, as the realtime
    feed lists them) [realtime] records events whose first_date is not after
    their last_date, the newest event first, none overlapping.  On a frame in
    increasing time order every event is recorded with its first_date not
    before its last_date: the interval handed to the catalog is inverted. *)
Theorem realtime_events_follow_frame_order :
  (forall (spec : list rt_row) (sh ww : pyfloat) (window : Z),
      StronglySorted Z.gt (map rt_time spec) ->
      exists st,
        realtime_scan spec sh ww window = Ok st /\
        Forall (fun e => fst e <= snd e) (recorded st) /\
        StronglySorted (fun e1 e2 => snd e2 < fst e1) (recorded st))
  /\
  (forall (spec : list rt_row) (sh ww : pyfloat) (window : Z),
      StronglySorted Z.lt (map rt_time spec) ->
      exists st,
        realtime_scan spec sh ww window = Ok st /\
        Forall (fun e => snd e <= fst e) (recorded st) /\
        StronglySorted (fun e1 e2 => fst e1 < snd e2) (recorded st)).
Proof.
  split; intros spec sh ww w Hsorted; eexists; (split; [apply realtime_scan_spec|]);
    rewrite recorded_realtime_view;
    rewrite <- (rt_samples_times sh ww) in Hsorted;
    destruct (spec_scan_chained _ w _ Hsorted) as [Hspan Hchain]; split.
  - apply Forall_map. revert Hspan. apply Forall_impl. intros [a b]. cbn. lia.
  - apply StronglySorted_map. cbn [fst snd].
    revert Hchain. apply StronglySorted_ind; [constructor|].
    intros e l Hl IH He. constructor; [exact IH|].
    revert He. apply Forall_impl. intros e'. lia.
  - apply Forall_map. revert Hspan. apply Forall_impl. intros [a b]. cbn. lia.
  - apply StronglySorted_map. cbn [fst snd]. exact Hchain.
Qed.

Lemma realtime_events_follow_frame_order_witness :
  exists st,
    realtime_scan
      [mk_rt_row 10800 (Fin (2 # 1)) (Fin (1 # 1)); mk_rt_row 7200 (Fin (2 # 1)) (Fin (1 # 1));
       mk_rt_row 3600 (Fin (2 # 1)) (Fin (1 # 1)); mk_rt_row 0 (Fin (2 # 1)) (Fin (1 # 1))]
      (Fin (1 # 1)) (Fin (3 # 1)) 1 = Ok st /\
    Forall (fun e => fst e <= snd e) (recorded st) /\
    StronglySorted (fun e1 e2 => snd e2 < fst e1) (recorded st).
Proof.
  apply (proj1 realtime_events_follow_frame_order). cbn.
  repeat constructor.
Defined.

(** ** Frames shorter than the window *)

Lemma spec_scan_short (w : Z) (l : list (Z * bool)) :
  (forall t t', In (t, true) l -> In (t', true) l -> Z.abs (t - t') < w * 3600) ->
  events (spec_scan w l) = [].
Proof.
  intros Hshort.
  destruct (events (spec_scan w l)) as [|[a b] ev] eqn:E; [reflexivity|]. exfalso.
  assert (Hin : In (a, b) (events (spec_scan w l))) by (rewrite E; now left).
  pose proof (spec_fold_span w l spec_init (Forall_nil _)) as Hspan.
  rewrite Forall_forall in Hspan. specialize (Hspan _ Hin). cbn in Hspan.
  pose proof (spec_fold_endpoints l w l (incl_refl l)) as Hfrom.
  rewrite Forall_forall in Hfrom. destruct (Hfrom _ Hin) as [Ha Hb]. cbn in Ha, Hb.
  specialize (Hshort b a Hb Ha). unfold elapsed in Hspan. lia.
Qed.

(** X5.  When any two qualifying rows of the frame are less than the window apart,
    neither loop records an event. *)
Theorem short_frame_no_events :
  (forall (spec : list rt_row) (sh ww : pyfloat) (window : Z),
      (forall r r', In r spec -> In r' spec ->
                    fge (SwH r) sh && fle (WWH r) ww = true ->
                    fge (SwH r') sh && fle (WWH r') ww = true ->
                    Z.abs (rt_time r - rt_time r') < window * 3600) ->
      exists st, realtime_scan spec sh ww window = Ok st /\
                 first_date st = [] /\ last_date st = [])
  /\
  (forall (data : list h_row) (wh : pyfloat) (window : Z),
      (forall r r', In r data -> In r' data ->
                    fge (WVHT r) wh = true -> fge (WVHT r') wh = true ->
                    Z.abs (h_time r - h_time r') < window * 3600) ->
      exists st, historic_scan data wh window = Ok st /\
                 first_date st = [] /\ last_date st = []).
Proof.
  split.
  - intros spec sh ww w Hshort. eexists. split; [apply realtime_scan_spec|].
    cbn [realtime_view first_date last_date].
    rewrite spec_scan_short; [now split|].
    intros t t' Ht Ht'.
    apply in_map_iff in Ht as (r & Hr & Hin). apply in_map_iff in Ht' as (r' & Hr' & Hin').
    injection Hr as <- Hh. injection Hr' as <- Hh'. now apply Hshort.
  - intros data wh w Hshort. eexists. split; [apply historic_scan_spec|].
    cbn [historic_view first_date last_date].
    rewrite spec_scan_short; [now split|].
    intros t t' Ht Ht'.
    apply in_map_iff in Ht as (r & Hr & Hin). apply in_map_iff in Ht' as (r' & Hr' & Hin').
    injection Hr as <- Hh. injection Hr' as <- Hh'. now apply Hshort.
Qed.

Lemma short_frame_no_events_witness :
  exists st,
    historic_scan
      [mk_h_row 0 (Fin (2 # 1)); mk_h_row 3600 (Fin (2 # 1)); mk_h_row 7200 (Fin (2 # 1))]
      (Fin (1 # 1)) 24 = Ok st /\
    first_date st = [] /\ last_date st = [].
Proof.
  apply (proj2 short_frame_no_events).
  intros r r' Hr Hr' _ _. cbn in Hr, Hr'.
  repeat (destruct Hr as [<-|Hr]); try contradiction;
    repeat (destruct Hr' as [<-|Hr']); try contradiction; cbn; lia.
Defined.

(** ** The resolver on a page that was fetched *)

Lemma match_here_plus_nil (ic : bool) (a : Regex.atom) (rest : list Regex.item) :
  Regex.match_here ic (Regex.Plus a :: rest) EmptyString = None.
Proof. reflexivity. Qed.

Lemma match_here_plus_cons (ic : bool) (a : Regex.atom) (rest : list Regex.item)
    (c : ascii) (s : string) :
  Regex.match_here ic (Regex.Plus a :: rest) (String c s)
  = if Regex.atom_matches ic a c then
      match Regex.match_here ic (Regex.Plus a :: rest) s with
      | Some (more :: others) => Some (String c more :: others)
      | _ => option_map (cons (String c EmptyString)) (Regex.match_here ic rest s)
      end
    else None.
Proof. reflexivity. Qed.

(** What each item of a pattern consumed, when the pattern matched. *)
Lemma match_here_shape (ic : bool) (items : list Regex.item) :
  forall (s : string) (m : list string),
    Regex.match_here ic items s = Some m ->
    Forall2
      (fun it x =>
         match it with
         | Regex.One a => exists c, x = String c EmptyString /\ Regex.atom_matches ic a c = true
         | Regex.Plus a =>
             x <> EmptyString /\
             Forall (fun c => Regex.atom_matches ic a c = true) (list_ascii_of_string x)
         end)
      items m.
Proof.
  induction items as [|[a|a] rest IH]; intros s m Hm.
  - cbn in Hm. injection Hm as <-. constructor.
  - destruct s as [|c s]; cbn in Hm; [discriminate|].
    destruct (Regex.atom_matches ic a c) eqn:Hc; [|discriminate].
    destruct (Regex.match_here ic rest s) as [m'|] eqn:Hrest; [|discriminate].
    cbn in Hm. injection Hm as <-.
    constructor; [now exists c | now apply (IH s)].
  - revert m Hm. induction s as [|c s IHs]; intros m Hm.
    + rewrite match_here_plus_nil in Hm. discriminate.
    + rewrite match_here_plus_cons in Hm.
      destruct (Regex.atom_matches ic a c) eqn:Hc; [|discriminate].
      destruct (Regex.match_here ic (Regex.Plus a :: rest) s) as [[|more others]|] eqn:Hplus.
      * destruct (Regex.match_here ic rest s) as [m'|] eqn:Hrest; [|discriminate].
        cbn in Hm. injection Hm as <-.
        constructor; [|now apply (IH s)].
        split; [discriminate | repeat constructor; exact Hc].
      * injection Hm as <-.
        specialize (IHs _ eq_refl). inversion IHs as [|? ? ? ? Hhead Hothers]; subst.
        destruct Hhead as [Hne Hall].
        constructor; [|exact Hothers].
        split; [discriminate | now constructor].
      * destruct (Regex.match_here ic rest s) as [m'|] eqn:Hrest; [|discriminate].
        cbn in Hm. injection Hm as <-.
        constructor; [|now apply (IH s)].
        split; [discriminate | repeat constructor; exact Hc].
Qed.

Lemma search_is_match (ic : bool) (items : list Regex.item) (s : string) (m : list string) :
  Regex.search ic items s = Some m ->
  exists s', Regex.match_here ic items s' = Some m.
Proof.
  induction s as [|c s IH]; cbn [Regex.search]; intros H.
  - destruct (Regex.match_here ic items EmptyString) as [m'|] eqn:E; [|discriminate].
    injection H as <-. now exists EmptyString.
  - destruct (Regex.match_here ic items (String c s)) as [m'|] eqn:E.
    + injection H as <-. now exists (String c s).
    + now apply IH.
Qed.

Lemma lit_dot_only (c : ascii) :
  Regex.atom_matches true (Regex.Lit ".") c = true -> c = "."%char.
Proof.
  destruct c as [[] [] [] [] [] [] [] []]; cbn; intros H;
    solve [reflexivity | discriminate H].
Qed.

Lemma digit_not_dot (c : ascii) : Str.is_digit c = true -> Ascii.eqb c "." = false.
Proof.
  destruct c as [[] [] [] [] [] [] [] []]; cbn; intros H;
    solve [reflexivity | discriminate H].
Qed.

Lemma all_digits_of_forall (x : string) :
  Forall (fun c => Regex.atom_matches true Regex.Digit c = true) (list_ascii_of_string x) ->
  Str.all_digits x = true.
Proof.
  induction x as [|c x IH]; cbn; intros H; [reflexivity|].
  inversion H as [|? ? Hc Hx]; subst. cbn in Hc. rewrite Hc. now apply IH.
Qed.

Lemma split_digits (d : string) :
  Str.all_digits d = true -> Str.split "." d = [d].
Proof.
  induction d as [|c d IH]; cbn; intros H; [reflexivity|].
  apply andb_prop in H as [Hc Hd]. rewrite (digit_not_dot c Hc), (IH Hd). reflexivity.
Qed.

Lemma split_decimal (d1 d2 : string) :
  Str.all_digits d1 = true -> Str.all_digits d2 = true ->
  Str.split "." (d1 ++ String "." d2) = [d1; d2].
Proof.
  intros H1 H2. induction d1 as [|c d1 IH]; cbn.
  - now rewrite (split_digits d2 H2).
  - cbn in H1. apply andb_prop in H1 as [Hc Hd].
    rewrite (digit_not_dot c Hc), (IH Hd). reflexivity.
Qed.

Lemma digits_value_nonneg (s : string) : forall acc, 0 <= acc -> 0 <= Str.digits_value acc s.
Proof.
  induction s as [|c s IH]; intros acc Hacc; cbn [Str.digits_value]; [exact Hacc|].
  apply IH. pose proof (Nat2Z.is_nonneg (nat_of_ascii c - 48)). lia.
Qed.

(** [float] succeeds on digits, a point, digits, and the value is not
    negative. *)
Lemma py_float_decimal_ok (d1 d2 : string) :
  d1 <> EmptyString -> d2 <> EmptyString ->
  Str.all_digits d1 = true -> Str.all_digits d2 = true ->
  exists q, py_float (d1 ++ String "." d2) = Ok q /\ (0 <= q)%Q.
Proof.
  intros Hn1 Hn2 H1 H2. unfold py_float. rewrite (split_decimal d1 d2 H1 H2).
  destruct d1 as [|c1 d1]; [congruence|]. destruct d2 as [|c2 d2]; [congruence|].
  cbn [String.eqb negb andb]. rewrite H1, H2. cbn [andb].
  eexists. split; [reflexivity|].
  unfold Qle. cbn [Qnum Qden]. rewrite Z.mul_1_r.
  pose proof (digits_value_nonneg (String c1 d1 ++ String c2 d2) 0 (Z.le_refl 0)). lia.
Qed.

(** The two decimals of a match of the resolver's pattern parse. *)
Lemma pattern_groups_parse (page : string) (m : list string) :
  Regex.search true regex_pattern page = Some m ->
  exists la lo,
    py_float (Regex.group m 0 3) = Ok la /\ (0 <= la)%Q /\
    py_float (Regex.group m 6 3) = Ok lo /\ (0 <= lo)%Q.
Proof.
  intros Hs. apply search_is_match in Hs as [s' Hm].
  apply match_here_shape in Hm. unfold regex_pattern in Hm. cbn [app] in Hm.
  repeat match goal with
         | H : Forall2 _ (_ :: _) _ |- _ => inversion H; clear H; subst
         | H : Forall2 _ [] _ |- _ => inversion H; clear H; subst
         end.
  repeat match goal with
         | H : exists _, _ |- _ => destruct H as (? & -> & ?)
         | H : _ /\ _ |- _ => destruct H
         end.
  repeat match goal with
         | H : Regex.atom_matches true (Regex.Lit ".") _ = true |- _ =>
             apply lit_dot_only in H; subst
         | H : Forall _ (list_ascii_of_string _) |- _ => apply all_digits_of_forall in H
         end.
  unfold Regex.group. cbn [skipn firstn Str.join String.append].
  match goal with
  | |- exists la lo, py_float (?a ++ String "." ?b) = _ /\ _ /\
                     py_float (?c ++ String "." ?d) = _ /\ _ =>
      destruct (py_float_decimal_ok a b) as (la & Hla & Hla0); try assumption;
      destruct (py_float_decimal_ok c d) as (lo & Hlo & Hlo0); try assumption;
      exists la, lo; auto
  end.
Qed.

(** The two outcomes of the resolver on a page fetched with status 200. *)
Lemma resolver_fetched_cases :
  forall (requests_get : Z -> response) (index : Z) (tr : list effect),
    status_code (requests_get index) = 200 ->
    match Regex.search true regex_pattern (text (requests_get index)) with
    | None =>
        get_lat_lon_from_ndbcnoaa requests_get index tr
        = (Ok (None, None), tr ++ [Print (Text (PStr "Regex pattern not found... "))])
    | Some m =>
        exists la lo : Q,
          py_float (Regex.group m 0 3) = Ok la /\ (0 <= la)%Q /\
          py_float (Regex.group m 6 3) = Ok lo /\ (0 <= lo)%Q /\
          get_lat_lon_from_ndbcnoaa requests_get index tr
          = (Ok (Some (if String.eqb (Regex.group m 4 1) "S" then (la * (-1 # 1))%Q else la),
                 Some (if String.eqb (Regex.group m 10 1) "W" then (lo * (-1 # 1))%Q else lo)),
             tr)
    end.
Proof.
  intros requests_get index tr Hs. unfold get_lat_lon_from_ndbcnoaa. rewrite Hs.
  cbn [Z.eqb Pos.eqb].
  destruct (Regex.search true regex_pattern (text (requests_get index))) as [m|] eqn:E;
    [|reflexivity].
  destruct (pattern_groups_parse _ _ E) as (la & lo & Hla & Hla0 & Hlo & Hlo0).
  exists la, lo. repeat (split; [assumption|]).
  unfold mbind, lift, mret. now rewrite Hla, Hlo.
Qed.

(** X7.  On a page fetched with status 200 the resolver never raises.  Either the
    pattern is nowhere in the page, and it prints its diagnostic and returns
    (None, None); or it returns, printing nothing, the two decimals of the
    leftmost match, neither negative as written, the latitude multiplied by
    -1 when the letter after it is a capital S and the longitude when the
    letter after it is a capital W. *)
Theorem resolver_on_fetched_page :
  forall (requests_get : Z -> response) (index : Z) (tr : list effect),
    status_code (requests_get index) = 200 ->
    match Regex.search true regex_pattern (text (requests_get index)) with
    | None =>
        get_lat_lon_from_ndbcnoaa requests_get index tr
        = (Ok (None, None), tr ++ [Print (Text (PStr "Regex pattern not found... "))])
    | Some m =>
        exists la lo : Q,
          py_float (Regex.group m 0 3) = Ok la /\ (0 <= la)%Q /\
          py_float (Regex.group m 6 3) = Ok lo /\ (0 <= lo)%Q /\
          get_lat_lon_from_ndbcnoaa requests_get index tr
          = (Ok (Some (if String.eqb (Regex.group m 4 1) "S" then (la * (-1 # 1))%Q else la),
                 Some (if String.eqb (Regex.group m 10 1) "W" then (lo * (-1 # 1))%Q else lo)),
             tr)
    end.
Proof. exact resolver_fetched_cases. Qed.

Lemma resolver_on_fetched_page_witness :
  exists la lo : Q,
    py_float "33.4" = Ok la /\ (0 <= la)%Q /\
    py_float "151.2" = Ok lo /\ (0 <= lo)%Q /\
    get_lat_lon_from_ndbcnoaa (fun _ => mk_response 200 "Sydney 33.4 S 151.2 E") 55020 []
    = (Ok (Some (la * (-1 # 1))%Q, Some lo), []).
Proof.
  exact (resolver_on_fetched_page
           (fun _ => mk_response 200 "Sydney 33.4 S 151.2 E") 55020 [] eq_refl).
Defined.

(** ** What the callers do when the resolver fails *)

(** X8.  A fetch answered with a status other than 200 ends [realtime] and
    [historic] in the resolver's TypeError: nothing is printed, the catalog is
    not queried, nothing is downloaded. *)
Theorem failed_fetch_aborts_callers :
  forall (requests_get : Z -> response) (bp_realtime_spec : Z -> list rt_row)
         (bp_stand_meteo : Z -> Z -> list h_row)
         (api_query : string * string -> footprint -> Z * Z ->
                      string -> string -> string -> string -> products)
         (location year : Z) (username password : string) (height : pyfloat) (window : Z)
         (wind_wave_height : pyfloat)
         (platformname polarisationmode producttype sensoroperationalmode auto_download : string)
         (tr : list effect),
    status_code (requests_get location) <> 200 ->
    realtime requests_get bp_realtime_spec api_query location username password height
      window wind_wave_height platformname polarisationmode producttype
      sensoroperationalmode auto_download tr
    = (Raise TypeError, tr)
    /\
    historic requests_get bp_stand_meteo api_query location year username password height
      window platformname polarisationmode producttype sensoroperationalmode
      auto_download tr
    = (Raise TypeError, tr).
Proof.
  intros until tr. intros Hs. unfold realtime, historic, mbind.
  now rewrite (resolver_bad_status requests_get location tr Hs).
Qed.

Lemma failed_fetch_aborts_callers_witness :
  realtime (fun _ => mk_response 503 "") sample_spec sample_query 41001 "u" "p"
    (Fin (1 # 1)) 24 (Fin (99 # 1)) "Sentinel-1" "VV" "SLC" "IW" "on" []
  = (Raise TypeError, [])
  /\
  historic (fun _ => mk_response 503 "") sample_stand_meteo sample_query 41001 2015 "u" "p"
    (Fin (1 # 1)) 24 "Sentinel-1" "VV" "SLC" "IW" "on" []
  = (Raise TypeError, []).
Proof.
  apply failed_fetch_aborts_callers. discriminate.
Defined.

(** X9.  A page fetched with status 200 that has no coordinates ends [realtime] and
    [historic] in a TypeError too, raised when the polygon is built from the
    null coordinate: the resolver's diagnostic is all that was printed, the
    catalog is not queried, nothing is downloaded. *)
Theorem null_coordinate_aborts_callers :
  forall (requests_get : Z -> response) (bp_realtime_spec : Z -> list rt_row)
         (bp_stand_meteo : Z -> Z -> list h_row)
         (api_query : string * string -> footprint -> Z * Z ->
                      string -> string -> string -> string -> products)
         (location year : Z) (username password : string) (height : pyfloat) (window : Z)
         (wind_wave_height : pyfloat)
         (platformname polarisationmode producttype sensoroperationalmode auto_download : string)
         (tr : list effect),
    status_code (requests_get location) = 200 ->
    Regex.search true regex_pattern (text (requests_get location)) = None ->
    realtime requests_get bp_realtime_spec api_query location username password height
      window wind_wave_height platformname polarisationmode producttype
      sensoroperationalmode auto_download tr
    = (Raise TypeError, tr ++ [Print (Text (PStr "Regex pattern not found... "))])
    /\
    historic requests_get bp_stand_meteo api_query location year username password height
      window platformname polarisationmode producttype sensoroperationalmode
      auto_download tr
    = (Raise TypeError, tr ++ [Print (Text (PStr "Regex pattern not found... "))]).
Proof.
  intros until tr. intros Hs Hnone.
  pose proof (resolver_fetched_cases requests_get location tr Hs) as Hres.
  rewrite Hnone in Hres. unfold realtime, historic, mbind. now rewrite Hres.
Qed.

Lemma null_coordinate_aborts_callers_witness :
  realtime (fun _ => mk_response 200 "41.2 N, 72.6 W") sample_spec sample_query 41001
    "u" "p" (Fin (1 # 1)) 24 (Fin (99 # 1)) "Sentinel-1" "VV" "SLC" "IW" "off" []
  = (Raise TypeError, [Print (Text (PStr "Regex pattern not found... "))])
  /\
  historic (fun _ => mk_response 200 "41.2 N, 72.6 W") sample_stand_meteo sample_query
    41001 2015 "u" "p" (Fin (1 # 1)) 24 "Sentinel-1" "VV" "SLC" "IW" "off" []
  = (Raise TypeError, [Print (Text (PStr "Regex pattern not found... "))]).
Proof.
  apply (null_coordinate_aborts_callers
           (fun _ => mk_response 200 "41.2 N, 72.6 W") sample_spec sample_stand_meteo);
    reflexivity.
Defined.

(** ** The keys of a catalog answer *)

















(** ** One event of the catalog loop *)









(** X13.  An event whose query is answered with no product: the list of titles is
    left as it was, nothing is raised and nothing downloaded, whatever
    auto_download is; the body prints the event and that no product is
    available. *)
Theorem event_without_products :
  forall (api_query : string * string -> footprint -> Z * Z ->
                      string -> string -> string -> string -> products)
         (api : string * string) (fp : footprint) (first_date last_date : list Z)
         (platformname polarisationmode producttype sensoroperationalmode auto_download : string)
         (i : nat) (product_list : list string) (tr : list effect) (a b : Z),
    getitem first_date i = Ok a ->
    getitem last_date i = Ok b ->
    api_query api fp (a, b) platformname polarisationmode producttype sensoroperationalmode
    = [] ->
    realtime_products_body api_query api fp first_date last_date platformname
      polarisationmode producttype sensoroperationalmode auto_download i product_list tr
    = (Ok product_list,
       tr ++ [Print (Text (PStr "---------------------------------------------"));
              Print (SwellEventNumber i); Print (StartEnd a b);
              Print (NoAvailableProduct platformname producttype)])
    /\
    historic_products_body api_query api fp first_date last_date platformname
      polarisationmode producttype sensoroperationalmode auto_download i product_list tr
    = (Ok product_list,
       tr ++ [Print (Text (PStr "---------------------------------------------"));
              Print (SwellEventNumber i); Print (StartEnd a b);
              Print (NoAvailableProduct platformname producttype)]).
Proof.
  intros until b. intros Ha Hb Hq.
  unfold realtime_products_body, historic_products_body.
  unfold mbind, lift, print, perform, mret.
  rewrite Ha, Hb, Hq. cbn [List.length Nat.eqb].
  repeat rewrite <- app_assoc. split; reflexivity.
Qed.

Lemma event_without_products_witness :
  realtime_products_body (fun _ _ _ _ _ _ _ => []) ("u", "p")%string [] [86400] [0]
    "Sentinel-1" "VV" "SLC" "IW" "on" 0 ["earlier"%string] []
  = (Ok ["earlier"%string],
     [Print (Text (PStr "---------------------------------------------"));
      Print (SwellEventNumber 0); Print (StartEnd 86400 0);
      Print (NoAvailableProduct "Sentinel-1" "SLC")]).
Proof.
  apply (proj1 (event_without_products (fun _ _ _ _ _ _ _ => []) ("u", "p")%string []
                  [86400] [0] "Sentinel-1" "VV" "SLC" "IW" "on" 0 ["earlier"%string] []
                  86400 0 eq_refl eq_refl eq_refl)).
Defined.

(** ** The catalog loop as a whole *)

Ltac split_run H :=
  repeat match type of H with
         | context [match ?x with _ => _ end] => destruct x eqn:?; try discriminate H
         end.

(** Whatever the answers of the catalog, one turn of the loop leaves the list
    of titles as it was or, when auto_download is not 'on', adds one title. *)
Lemma realtime_body_titles
    (api_query : string * string -> footprint -> Z * Z ->
                 string -> string -> string -> string -> products)
    (api : string * string) (fp : footprint) (first_date last_date : list Z)
    (pn pm pt sm ad : string) (i : nat) (pl l : list string) (tr tr' : list effect) :
  realtime_products_body api_query api fp first_date last_date pn pm pt sm ad i pl tr
  = (Ok l, tr') ->
  l = pl \/ (String.eqb ad "on" = false /\ exists t, l = pl ++ [t]).
Proof.
  unfold realtime_products_body, mbind, lift, print, perform, mret. intros H.
  destruct (String.eqb ad "on") eqn:Hon; split_run H; injection H as <- _;
    repeat match goal with
           | E : (_, _) = (_, _) |- _ => injection E as ? ?; subst
           | E : Ok _ = Ok _ |- _ => injection E as ?; subst
           end;
    try (now left); right; split; eauto.
Qed.

Lemma historic_body_titles
    (api_query : string * string -> footprint -> Z * Z ->
                 string -> string -> string -> string -> products)
    (api : string * string) (fp : footprint) (first_date last_date : list Z)
    (pn pm pt sm ad : string) (i : nat) (pl l : list string) (tr tr' : list effect) :
  historic_products_body api_query api fp first_date last_date pn pm pt sm ad i pl tr
  = (Ok l, tr') ->
  l = pl \/ (String.eqb ad "on" = false /\ exists t, l = pl ++ [t]).
Proof.
  unfold historic_products_body, mbind, lift, print, perform, mret. intros H.
  destruct (String.eqb ad "on") eqn:Hon; split_run H; injection H as <- _;
    repeat match goal with
           | E : (_, _) = (_, _) |- _ => injection E as ? ?; subst
           | E : Ok _ = Ok _ |- _ => injection E as ?; subst
           end;
    try (now left); right; split; eauto.
Qed.

Lemma loop_titles (body : nat -> list string -> M (list string)) (ad : string) :
  (forall i pl tr l tr',
      body i pl tr = (Ok l, tr') ->
      l = pl \/ (String.eqb ad "on" = false /\ exists t, l = pl ++ [t])) ->
  forall idx pl tr l tr',
    for_each_M body idx pl tr = (Ok l, tr') ->
    (List.length l <= List.length pl + List.length idx)%nat /\
    (String.eqb ad "on" = true -> l = pl).
Proof.
  intros Hbody. induction idx as [|i idx IH]; intros pl tr l tr' H.
  - cbn in H. injection H as <- _. split; [cbn; lia | reflexivity].
  - cbn [for_each_M] in H. unfold mbind in H.
    destruct (body i pl tr) as [[pl1|e] tr1] eqn:E; [|discriminate].
    destruct (IH _ _ _ _ H) as [Hlen Hon].
    destruct (Hbody _ _ _ _ _ E) as [->|[Hoff [t ->]]].
    + split; [cbn [List.length]; lia | exact Hon].
    + split; [rewrite length_app in Hlen; cbn [List.length] in *; lia|].
      intros Hon'. congruence.
Qed.

(** X14.  [realtime] and [historic] return at most one title per event they found,
    and with auto_download 'on' they return no title at all. *)
Theorem titles_bounded_by_events :
  forall (requests_get : Z -> response) (bp_realtime_spec : Z -> list rt_row)
         (bp_stand_meteo : Z -> Z -> list h_row)
         (api_query : string * string -> footprint -> Z * Z ->
                      string -> string -> string -> string -> products)
         (location year : Z) (username password : string) (height : pyfloat) (window : Z)
         (wind_wave_height : pyfloat)
         (platformname polarisationmode producttype sensoroperationalmode auto_download : string)
         (tr tr' : list effect) (titles : list string),
    (realtime requests_get bp_realtime_spec api_query location username password height
       window wind_wave_height platformname polarisationmode producttype
       sensoroperationalmode auto_download tr = (Ok titles, tr') ->
     exists st,
       realtime_windows (bp_realtime_spec location) height wind_wave_height window = Ok st /\
       (List.length titles <= List.length (first_date st))%nat /\
       (auto_download = "on"%string -> titles = []))
    /\
    (historic requests_get bp_stand_meteo api_query location year username password height
       window platformname polarisationmode producttype sensoroperationalmode
       auto_download tr = (Ok titles, tr') ->
     exists st,
       historic_windows (bp_stand_meteo location year) height window = Ok st /\
       (List.length titles <= List.length (first_date st))%nat /\
       (auto_download = "on"%string -> titles = [])).
Proof.
  intros until titles. split; intros H.
  - unfold realtime, for_range_M in H. unfold mbind at 1 2 3 4 5 in H.
    unfold lift, print, perform in H. split_run H.
    match goal with
    | Hs : realtime_scan _ _ _ _ = Ok ?st |- _ => exists st; split; [exact Hs|]
    end.
    destruct (loop_titles _ auto_download
                (fun i pl tr0 l0 tr1 E =>
                   realtime_body_titles _ _ _ _ _ _ _ _ _ _ i pl l0 tr0 tr1 E)
                _ _ _ _ _ H) as [Hlen Hon].
    rewrite length_seq in Hlen. split; [exact Hlen|].
    intros ->. now apply Hon.
  - unfold historic, for_range_M in H. unfold mbind at 1 2 3 in H.
    unfold lift in H. split_run H.
    match goal with
    | Hs : historic_scan _ _ _ = Ok ?st |- _ => exists st; split; [exact Hs|]
    end.
    destruct (loop_titles _ auto_download
                (fun i pl tr0 l0 tr1 E =>
                   historic_body_titles _ _ _ _ _ _ _ _ _ _ i pl l0 tr0 tr1 E)
                _ _ _ _ _ H) as [Hlen Hon].
    rewrite length_seq in Hlen. split; [exact Hlen|].
    intros ->. now apply Hon.
Qed.

Lemma titles_bounded_by_events_witness :
  (exists st,
      realtime_windows (sample_spec 41001) (Fin (1 # 1)) (Fin (99 # 1)) 24 = Ok st /\
      (List.length ["S1B_IW_SLC"%string] <= List.length (first_date st))%nat /\
      ("off"%string = "on"%string -> ["S1B_IW_SLC"%string] = []))
  /\
  (exists st,
      historic_windows (sample_stand_meteo 41001 2015) (Fin (1 # 1)) 24 = Ok st /\
      (List.length (@nil string) <= List.length (first_date st))%nat /\
      ("on"%string = "on"%string -> @nil string = [])).
Proof.
  split.
  - exact (proj1 (titles_bounded_by_events sample_get sample_spec sample_stand_meteo
                    sample_query 41001 2015 "u" "p" (Fin (1 # 1)) 24 (Fin (99 # 1))
                    "Sentinel-1" "VV" "SLC" "IW" "off" [] _ ["S1B_IW_SLC"%string])
             eq_refl).
  - exact (proj2 (titles_bounded_by_events sample_get sample_spec sample_stand_meteo
                    sample_query 41001 2015 "u" "p" (Fin (1 # 1)) 24 (Fin (99 # 1))
                    "Sentinel-1" "VV" "SLC" "IW" "on" [] _ [])
             eq_refl).
Defined.

(** ** Nothing is downloaded unless asked *)

Lemma only_prints_ret {A : Type} (a : A) : only_prints (mret a).
Proof. intros tr. exists []. cbn. now rewrite app_nil_r. Qed.

Lemma only_prints_lift {A : Type} (r : result A) : only_prints (lift r).
Proof. intros tr. exists []. cbn. now rewrite app_nil_r. Qed.

Lemma only_prints_print (m : msg) : only_prints (print m).
Proof. intros tr. exists [Print m]. cbn. split; [reflexivity|]. repeat constructor. now exists m. Qed.

Lemma only_prints_bind {A B : Type} (c : M A) (k : A -> M B) :
  only_prints c -> (forall a, only_prints (k a)) -> only_prints (mbind c k).
Proof.
  intros Hc Hk tr. unfold mbind.
  destruct (Hc tr) as (added & Htr & Hadded).
  destruct (c tr) as [[a|e] tr1]; cbn [snd] in Htr; subst tr1.
  - destruct (Hk a (tr ++ added)) as (added' & Htr' & Hadded').
    exists (added ++ added'). rewrite Htr', app_assoc. split; [reflexivity|].
    apply Forall_app. now split.
  - exists added. now split.
Qed.

Lemma only_prints_for {S : Type} (body : nat -> S -> M S) (idx : list nat) :
  (forall i st, only_prints (body i st)) ->
  forall st, only_prints (for_each_M body idx st).
Proof.
  intros Hbody. induction idx as [|i idx IH]; intros st; cbn [for_each_M].
  - apply only_prints_ret.
  - apply only_prints_bind; [apply Hbody | exact IH].
Qed.

Ltac only_prints_step :=
  first [ apply only_prints_ret
        | apply only_prints_lift
        | apply only_prints_print
        | apply only_prints_for; intros
        | apply only_prints_bind; [|intros]
        | match goal with
          | |- only_prints (if ?b then _ else _) => destruct b
          | |- only_prints (match ?x with _ => _ end) => destruct x
          end ].

Lemma resolver_only_prints (requests_get : Z -> response) (index : Z) :
  only_prints (get_lat_lon_from_ndbcnoaa requests_get index).
Proof. unfold get_lat_lon_from_ndbcnoaa. cbv zeta. repeat only_prints_step. Qed.

(** X15.  With auto_download anything but the string 'on', [realtime] and
    [historic] never call download_all: whatever the services answer and
    whether they return or raise, they leave the trace they were given
    followed by printed lines only. *)
Theorem no_download_unless_on :
  forall (requests_get : Z -> response) (bp_realtime_spec : Z -> list rt_row)
         (bp_stand_meteo : Z -> Z -> list h_row)
         (api_query : string * string -> footprint -> Z * Z ->
                      string -> string -> string -> string -> products)
         (location year : Z) (username password : string) (height : pyfloat) (window : Z)
         (wind_wave_height : pyfloat)
         (platformname polarisationmode producttype sensoroperationalmode auto_download : string),
    auto_download <> "on"%string ->
    only_prints
      (realtime requests_get bp_realtime_spec api_query location username password height
         window wind_wave_height platformname polarisationmode producttype
         sensoroperationalmode auto_download)
    /\
    only_prints
      (historic requests_get bp_stand_meteo api_query location year username password
         height window platformname polarisationmode producttype sensoroperationalmode
         auto_download).
Proof.
  intros until auto_download. intros Hoff. apply String.eqb_neq in Hoff.
  split.
  - unfold realtime, for_range_M. cbv zeta.
    apply only_prints_bind; [apply resolver_only_prints | intros].
    repeat only_prints_step.
    unfold realtime_products_body. cbv zeta. rewrite Hoff. repeat only_prints_step.
  - unfold historic, for_range_M. cbv zeta.
    apply only_prints_bind; [apply resolver_only_prints | intros].
    repeat only_prints_step.
    unfold historic_products_body. cbv zeta. rewrite Hoff. repeat only_prints_step.
Qed.

Lemma no_download_unless_on_witness :
  only_prints
    (realtime sample_get sample_spec sample_query 41001 "u" "p" (Fin (1 # 1)) 24
       (Fin (99 # 1)) "Sentinel-1" "VV" "SLC" "IW" "ON").
Proof.
  apply (proj1 (no_download_unless_on sample_get sample_spec sample_stand_meteo
                  sample_query 41001 2015 "u" "p" (Fin (1 # 1)) 24 (Fin (99 # 1))
                  "Sentinel-1" "VV" "SLC" "IW" "ON" ltac:(discriminate))).
Defined.

(** ** any_realtime over the list of stations *)

Lemma realtime_each_raises
    (requests_get : Z -> response) (bp_realtime_spec : Z -> list rt_row)
    (api_query : string * string -> footprint -> Z * Z ->
                 string -> string -> string -> string -> products)
    (username password : string) (swell_height : pyfloat) (x : Z) (l : list Z) :
  In x l ->
  (forall tr, exists e tr',
      realtime requests_get bp_realtime_spec api_query x username password swell_height
        24 (Fin (99 # 1)) "Sentinel-1" "VV" "SLC" "IW" "off" tr = (Raise e, tr')) ->
  forall tr, exists e,
    fst (realtime_each requests_get bp_realtime_spec api_query username password
           swell_height l tr) = Raise e.
Proof.
  intros Hin Hx. induction l as [|y l IH]; intros tr; [contradiction|].
  cbn [realtime_each]. unfold mbind, mret.
  destruct (realtime requests_get bp_realtime_spec api_query y username password
              swell_height 24 (Fin (99 # 1)) "Sentinel-1" "VV" "SLC" "IW" "off" tr)
    as [[titles|e] tr1] eqn:E.
  - destruct Hin as [->|Hin].
    + destruct (Hx tr) as (e & tr' & He). congruence.
    + destruct (IH Hin tr1) as [e He].
      destruct (realtime_each requests_get bp_realtime_spec api_query username password
                  swell_height l tr1) as [[others|e'] tr2]; cbn in He |- *; [discriminate|].
      now exists e'.
  - now exists e.
Qed.

(** X17.  When [any_realtime] returns, it returns one list of titles per station of
    the list, 77 of them, in the order of the list. *)
Theorem any_realtime_one_list_per_station :
  forall (requests_get : Z -> response) (bp_realtime_spec : Z -> list rt_row)
         (api_query : string * string -> footprint -> Z * Z ->
                      string -> string -> string -> string -> products)
         (username password : string) (swell_height : pyfloat)
         (window : Z) (wind_wave_height : pyfloat)
         (platformname polarisationmode producttype sensoroperationalmode : string)
         (tr : list effect) (all_products : list (list string)),
    fst (any_realtime requests_get bp_realtime_spec api_query username password swell_height
           window wind_wave_height platformname polarisationmode producttype
           sensoroperationalmode tr) = Ok all_products ->
    List.length all_products = List.length list_of_realtime_buoys_NOAA /\
    List.length all_products = 77%nat.
Proof.
  intros until all_products. rewrite any_realtime_value. intros H.
  destruct (realtime_each requests_get bp_realtime_spec api_query username password
              swell_height list_of_realtime_buoys_NOAA tr) as [[r|e] tr1] eqn:E;
    cbn in H; [|discriminate].
  injection H as <-.
  pose proof (realtime_each_length _ _ _ _ _ _ _ _ _ _ E) as Hlen.
  split; [exact Hlen | rewrite Hlen; reflexivity].
Qed.

Lemma any_realtime_one_list_per_station_witness :
  List.length
    (repeat ["S1B_IW_SLC"%string] 77)
  = List.length list_of_realtime_buoys_NOAA /\
  List.length (repeat ["S1B_IW_SLC"%string] 77) = 77%nat.
Proof.
  apply (any_realtime_one_list_per_station sample_get sample_spec sample_query "u" "p"
           (Fin (1 # 1)) 24 (Fin (99 # 1)) "Sentinel-1" "VV" "SLC" "IW" []).
  vm_compute. reflexivity.
Defined.

(** X18.  [any_realtime] has no handler around its calls of [realtime]: when the
    status page of one station of the list is answered with a status other
    than 200, or has no coordinates in it, the whole call raises and no list
    is returned for any station. *)
Theorem any_realtime_aborts_on_one_station :
  forall (requests_get : Z -> response) (bp_realtime_spec : Z -> list rt_row)
         (api_query : string * string -> footprint -> Z * Z ->
                      string -> string -> string -> string -> products)
         (username password : string) (swell_height : pyfloat)
         (window : Z) (wind_wave_height : pyfloat)
         (platformname polarisationmode producttype sensoroperationalmode : string)
         (tr : list effect) (station : Z),
    In station list_of_realtime_buoys_NOAA ->
    status_code (requests_get station) <> 200 \/
    Regex.search true regex_pattern (text (requests_get station)) = None ->
    exists e,
      fst (any_realtime requests_get bp_realtime_spec api_query username password
             swell_height window wind_wave_height platformname polarisationmode
             producttype sensoroperationalmode tr) = Raise e.
Proof.
  intros until station. intros Hin Hbad. rewrite any_realtime_value.
  apply (realtime_each_raises _ _ _ _ _ _ station _ Hin).
  intros tr0. exists TypeError. unfold realtime, mbind.
  destruct (Z.eq_dec (status_code (requests_get station)) 200) as [H200|Hnot].
  - destruct Hbad as [Hbad|Hnone]; [contradiction|].
    pose proof (resolver_fetched_cases requests_get station tr0 H200) as Hres.
    rewrite Hnone in Hres. rewrite Hres. cbn. eauto.
  - rewrite (resolver_bad_status requests_get station tr0 Hnot). eauto.
Qed.

Lemma any_realtime_aborts_on_one_station_witness :
  exists e,
    fst (any_realtime
           (fun station => if station =? 46089 then mk_response 404 "" else sample_get station)
           sample_spec sample_query "u" "p" (Fin (1 # 1)) 24 (Fin (99 # 1))
           "Sentinel-1" "VV" "SLC" "IW" []) = Raise e.
Proof.
  apply (any_realtime_aborts_on_one_station
           (fun station => if station =? 46089 then mk_response 404 "" else sample_get station)
           sample_spec sample_query "u" "p" (Fin (1 # 1)) 24 (Fin (99 # 1))
           "Sentinel-1" "VV" "SLC" "IW" [] 46089).
  - cbn. tauto.
  - left. cbn. discriminate.
Defined.

(** ** What the catalog is asked *)

Lemma for_each_M_agree {S : Type} (body body' : nat -> S -> M S) (idx : list nat) :
  (forall i, In i idx -> forall st tr, body i st tr = body' i st tr) ->
  forall st tr, for_each_M body idx st tr = for_each_M body' idx st tr.
Proof.
  induction idx as [|i idx IH]; intros Hagree st tr; [reflexivity|].
  cbn [for_each_M]. unfold mbind. rewrite (Hagree i (or_introl eq_refl)).
  destruct (body' i st tr) as [[st1|e] tr1]; [|reflexivity].
  apply IH. intros j Hj. apply Hagree. now right.
Qed.

Lemma getitem_pair_recorded (first_date last_date : list Z) (i : nat) (a b : Z) :
  getitem first_date i = Ok a -> getitem last_date i = Ok b ->
  In (a, b) (combine first_date last_date).
Proof.
  unfold getitem. revert last_date i.
  induction first_date as [|x fd IH]; intros [|y ld] [|i]; cbn; try discriminate.
  - intros Ha Hb. injection Ha as <-. injection Hb as <-. now left.
  - intros Ha Hb. right. now apply (IH ld i).
Qed.

(** X16.  [realtime] and [historic] ask the catalog about the events they recorded
    and nothing else: two catalogs that give the same answers for the caller's
    credentials and search options on every recorded interval (first_date,
    last_date) make them return and print the same. *)
Theorem catalog_asked_about_recorded_events_only :
  forall (requests_get : Z -> response) (bp_realtime_spec : Z -> list rt_row)
         (bp_stand_meteo : Z -> Z -> list h_row)
         (api_query api_query' : string * string -> footprint -> Z * Z ->
                                 string -> string -> string -> string -> products)
         (location year : Z) (username password : string) (height : pyfloat) (window : Z)
         (wind_wave_height : pyfloat)
         (platformname polarisationmode producttype sensoroperationalmode auto_download : string)
         (tr : list effect),
    ((forall st fp a b,
         realtime_windows (bp_realtime_spec location) height wind_wave_height window = Ok st ->
         In (a, b) (recorded st) ->
         api_query (username, password) fp (a, b)
           platformname polarisationmode producttype sensoroperationalmode
         = api_query' (username, password) fp (a, b)
             platformname polarisationmode producttype sensoroperationalmode) ->
     realtime requests_get bp_realtime_spec api_query location username password height
       window wind_wave_height platformname polarisationmode producttype
       sensoroperationalmode auto_download tr
     = realtime requests_get bp_realtime_spec api_query' location username password height
         window wind_wave_height platformname polarisationmode producttype
         sensoroperationalmode auto_download tr)
    /\
    ((forall st fp a b,
         historic_windows (bp_stand_meteo location year) height window = Ok st ->
         In (a, b) (recorded st) ->
         api_query (username, password) fp (a, b)
           platformname polarisationmode producttype sensoroperationalmode
         = api_query' (username, password) fp (a, b)
             platformname polarisationmode producttype sensoroperationalmode) ->
     historic requests_get bp_stand_meteo api_query location year username password height
       window platformname polarisationmode producttype sensoroperationalmode
       auto_download tr
     = historic requests_get bp_stand_meteo api_query' location year username password
         height window platformname polarisationmode producttype sensoroperationalmode
         auto_download tr).
Proof.
  intros until tr. split; intros Hagree.
  - unfold realtime, for_range_M, mbind.
    destruct (get_lat_lon_from_ndbcnoaa requests_get location tr) as [[latlon|e] tr1];
      [|reflexivity].
    unfold lift, print, perform.
    destruct (make_polygon (fst latlon) (snd latlon)) as [fp|e]; [|reflexivity].
    destruct (realtime_scan (drop_missing_spec (bp_realtime_spec location)) height
                wind_wave_height window) as [st|e] eqn:Hst; [|reflexivity].
    apply for_each_M_agree. intros i _ pl tr2.
    unfold realtime_products_body, mbind, lift, print, perform.
    destruct (getitem (first_date st) i) as [a|e] eqn:Ha; [|reflexivity].
    destruct (getitem (last_date st) i) as [b|e] eqn:Hb; [|reflexivity].
    now rewrite (Hagree st fp a b Hst (getitem_pair_recorded _ _ _ _ _ Ha Hb)).
  - unfold historic, for_range_M, mbind.
    destruct (get_lat_lon_from_ndbcnoaa requests_get location tr) as [[latlon|e] tr1];
      [|reflexivity].
    unfold lift.
    destruct (make_polygon (fst latlon) (snd latlon)) as [fp|e]; [|reflexivity].
    destruct (historic_scan (drop_missing_data (bp_stand_meteo location year)) height
                window) as [st|e] eqn:Hst; [|reflexivity].
    apply for_each_M_agree. intros i _ pl tr2.
    unfold historic_products_body, mbind, lift, print, perform.
    destruct (getitem (first_date st) i) as [a|e] eqn:Ha; [|reflexivity].
    destruct (getitem (last_date st) i) as [b|e] eqn:Hb; [|reflexivity].
    now rewrite (Hagree st fp a b Hst (getitem_pair_recorded _ _ _ _ _ Ha Hb)).
Qed.

Lemma catalog_asked_about_recorded_events_only_witness :
  realtime sample_get sample_spec sample_query 41001 "u" "p" (Fin (1 # 1)) 24
    (Fin (99 # 1)) "Sentinel-1" "VV" "SLC" "IW" "off" []
  = realtime sample_get sample_spec
      (fun api fp date pn pm pt sm =>
         if (fst date =? 0) && (snd date =? 86400)
         then sample_query api fp date pn pm pt sm else [])
      41001 "u" "p" (Fin (1 # 1)) 24 (Fin (99 # 1)) "Sentinel-1" "VV" "SLC" "IW" "off" [].
Proof.
  apply (proj1 (catalog_asked_about_recorded_events_only sample_get sample_spec
                  sample_stand_meteo sample_query
                  (fun api fp date pn pm pt sm =>
                     if (fst date =? 0) && (snd date =? 86400)
                     then sample_query api fp date pn pm pt sm else [])
                  41001 2015 "u" "p" (Fin (1 # 1)) 24 (Fin (99 # 1))
                  "Sentinel-1" "VV" "SLC" "IW" "off" [])).
  intros st fp a b Hst Hin. vm_compute in Hst. injection Hst as <-.
  cbn in Hin. destruct Hin as [Hin|[]]. injection Hin as <- <-. reflexivity.
Defined.

(** ** What is left in the accumulator *)

Lemma hd_snoc {A : Type} (l : list A) (x d : A) : List.hd d (l ++ [x]) = List.hd x l.
Proof. destruct l; reflexivity. Qed.

Lemma spec_scan_pending (w : Z) (l : list (Z * bool)) :
  accumulator (spec_scan w l) = [] \/
  elapsed (List.hd 0 (accumulator (spec_scan w l)))
    (List.last (accumulator (spec_scan w l)) 0) < w * 3600.
Proof.
  destruct l as [|s l] using rev_ind; [now left|].
  unfold spec_scan. rewrite fold_left_app. cbn [fold_left].
  destruct s as [t [|]]; [|now left].
  rewrite spec_step_holds.
  destruct (Z.leb_spec (w * 3600)
              (elapsed (List.hd t (accumulator (fold_left (spec_step w) l spec_init))) t));
    [now left|].
  right. cbn [accumulator]. now rewrite hd_snoc, last_snoc.
Qed.

Lemma spec_scan_accumulator_drawn (w : Z) (l : list (Z * bool)) :
  Forall (fun t => In (t, true) l) (accumulator (spec_scan w l)).
Proof.
  apply (spec_fold_drawn l w l spec_init (incl_refl l)). split; constructor.
Qed.

(** X6.  When either loop ends, what is left in its accumulator are timestamps of
    rows that satisfy the predicate, and from the first to the last of them
    less than the window has elapsed: a run that has not reached the window
    when the frame ends is never recorded. *)
Theorem accumulator_left_below_window :
  (forall (spec : list rt_row) (sh ww : pyfloat) (window : Z),
      exists st,
        realtime_scan spec sh ww window = Ok st /\
        Forall (fun t => exists r, In r spec /\ rt_time r = t /\
                                   fge (SwH r) sh && fle (WWH r) ww = true)
          (swell_event st) /\
        (swell_event st = [] \/
         Z.abs (List.last (swell_event st) 0 - List.hd 0 (swell_event st)) < window * 3600))
  /\
  (forall (data : list h_row) (wh : pyfloat) (window : Z),
      exists st,
        historic_scan data wh window = Ok st /\
        Forall (fun t => exists r, In r data /\ h_time r = t /\ fge (WVHT r) wh = true)
          (swell_event st) /\
        (swell_event st = [] \/
         Z.abs (List.last (swell_event st) 0 - List.hd 0 (swell_event st)) < window * 3600)).
Proof.
  split.
  - intros spec sh ww w. eexists. split; [apply realtime_scan_spec|].
    cbn [realtime_view swell_event]. split; [|apply spec_scan_pending].
    pose proof (spec_scan_accumulator_drawn w (rt_samples sh ww spec)) as H.
    revert H. apply Forall_impl. intros t Ht.
    apply in_map_iff in Ht as (r & Hr & Hin). injection Hr as Ht Hh.
    exists r. auto.
  - intros data wh w. eexists. split; [apply historic_scan_spec|].
    cbn [historic_view swell_event]. split; [|apply spec_scan_pending].
    pose proof (spec_scan_accumulator_drawn w (h_samples wh data)) as H.
    revert H. apply Forall_impl. intros t Ht.
    apply in_map_iff in Ht as (r & Hr & Hin). injection Hr as Ht Hh.
    exists r. auto.
Qed.
